(** * GeminiVoiceAgent: the response extractor and the two chat handlers

    A shallow embedding of [extract_text_from_response] and [api_chat]
    (src/new.py) and of [genai_response] (src/GPTraw.py), together with the
    fragment of the Python object model that these three functions observe:
    attribute probing, truthiness, subscripting, membership and string
    conversion.  Exceptions are values of an error monad; a [try]/[except]
    block is a case analysis on the outcome of its body. *)

From Stdlib Require Import ZArith String Ascii List Bool Lia.
From Stdlib Require Import DecimalString.
Import ListNotations.
Local Open Scope string_scope.
Local Open Scope Z_scope.
Set Warnings "-register-all".

(* ------------------------------------------------------------------ *)
(** ** Exceptions and outcomes *)

(** The classes of exception the modelled operations raise.  Every value of
    [exn] is an instance of Python's [Exception], which is what the
    [except Exception] clauses of the source intercept; interpreter signals
    that derive from [BaseException] only ([KeyboardInterrupt],
    [SystemExit]) are not failures of the program and are not represented. *)
Inductive exn_class : Type :=
| AttributeError
| TypeError
| KeyError
| IndexError
| ValueError
| OtherError (name : string).

Record exn : Type := mkExn { exn_cls : exn_class; exn_msg : string }.

Definition is_AttributeError (e : exn) : bool :=
  match exn_cls e with AttributeError => true | _ => false end.

(** [str(e)] for an exception is its message. *)
Definition exn_str (e : exn) : string := exn_msg e.

(** The outcome of evaluating a Python expression. *)
Inductive res (A : Type) : Type :=
| Val (a : A)
| Exc (e : exn).
Arguments Val {A} a.
Arguments Exc {A} e.

Definition bind {A B : Type} (r : res A) (k : A -> res B) : res B :=
  match r with
  | Val a => k a
  | Exc e => Exc e
  end.

Declare Scope py_scope.
Delimit Scope py_scope with py.
Notation "x <- r ;; k" := (bind r (fun x => k))
  (at level 61, r at next level, right associativity) : py_scope.
Local Open Scope py_scope.

(* ------------------------------------------------------------------ *)
(** ** Values *)

(** What an instance of a user-defined class answers to [str], [repr] and
    [bool]; each of the three may raise. *)
Record objinfo : Type := mkInfo {
  o_str  : res string;
  o_repr : res string;
  o_bool : res bool
}.

(** Python values.  A string has one character per code point, so its code
    points are below 256.  A mapping is an association list in insertion
    order with string keys, the first binding of a key being the live one;
    an object carries its attribute table, where an entry [Exc e] is a
    property whose getter raises [e].  Objects answer to attribute access,
    [str], [repr] and [bool] only, and floating-point numbers are left
    out. *)
Inductive pyval : Type :=
| VNone
| VBool (b : bool)
| VInt (n : Z)
| VStr (s : string)
| VList (xs : list pyval)
| VTuple (xs : list pyval)
| VDict (kvs : list (string * pyval))
| VObj (info : objinfo) (attrs : list (string * res pyval)).

(** Lookup in an association list with string keys. *)
Fixpoint assoc {A : Type} (k : string) (l : list (string * A)) : option A :=
  match l with
  | [] => None
  | (k', a) :: rest => if String.eqb k k' then Some a else assoc k rest
  end.

Definition is_str (v : pyval) : bool :=
  match v with VStr _ => true | _ => false end.

Definition is_dict (v : pyval) : bool :=
  match v with VDict _ => true | _ => false end.

Definition is_list (v : pyval) : bool :=
  match v with VList _ => true | _ => false end.

(** [isinstance(v, (list, tuple))] *)
Definition is_list_or_tuple (v : pyval) : bool :=
  match v with VList _ | VTuple _ => true | _ => false end.

Definition nonempty {A : Type} (l : list A) : bool :=
  match l with [] => false | _ :: _ => true end.

(** Truth value of [v] in a condition. *)
Definition truthy (v : pyval) : res bool :=
  match v with
  | VNone => Val false
  | VBool b => Val b
  | VInt n => Val (negb (Z.eqb n 0))
  | VStr s => Val (negb (String.eqb s ""))
  | VList xs => Val (nonempty xs)
  | VTuple xs => Val (nonempty xs)
  | VDict kvs => Val (nonempty kvs)
  | VObj info _ => o_bool info
  end.

(** [len(v)] for the sequences the extractor measures. *)
Definition py_len (v : pyval) : res Z :=
  match v with
  | VStr s => Val (Z.of_nat (String.length s))
  | VList xs | VTuple xs => Val (Z.of_nat (List.length xs))
  | VDict kvs => Val (Z.of_nat (List.length kvs))
  | _ => Exc (mkExn TypeError "object has no len()")
  end.

(** *** Attributes

    None of the names probed by the source ([text], [candidates],
    [output_text], [content]) is an attribute of a built-in type, so only
    objects answer. *)

(** [v.name] *)
Definition py_attr (v : pyval) (name : string) : res pyval :=
  match v with
  | VObj _ attrs =>
      match assoc name attrs with
      | Some r => r
      | None => Exc (mkExn AttributeError name)
      end
  | _ => Exc (mkExn AttributeError name)
  end.

(** [getattr(v, name, default)]: an [AttributeError] yields the default, any
    other exception of the getter propagates. *)
Definition py_getattr (v : pyval) (name : string) (default : pyval) : res pyval :=
  match py_attr v name with
  | Val x => Val x
  | Exc e => if is_AttributeError e then Val default else Exc e
  end.

(** [hasattr(v, name)]: like [getattr], only [AttributeError] means no. *)
Definition py_hasattr (v : pyval) (name : string) : res bool :=
  match py_attr v name with
  | Val _ => Val true
  | Exc e => if is_AttributeError e then Val false else Exc e
  end.

(** *** Subscripting and membership *)

(** [v[i]] for a non-negative integer index. *)
Definition py_getitem_int (v : pyval) (i : nat) : res pyval :=
  match v with
  | VList xs | VTuple xs =>
      match nth_error xs i with
      | Some x => Val x
      | None => Exc (mkExn IndexError "index out of range")
      end
  | VStr s =>
      match String.get i s with
      | Some c => Val (VStr (String c EmptyString))
      | None => Exc (mkExn IndexError "string index out of range")
      end
  | VDict _ => Exc (mkExn KeyError "0")
  | _ => Exc (mkExn TypeError "object is not subscriptable")
  end.

(** [v[k]] for a string key. *)
Definition py_getitem_key (v : pyval) (k : string) : res pyval :=
  match v with
  | VDict kvs =>
      match assoc k kvs with
      | Some x => Val x
      | None => Exc (mkExn KeyError k)
      end
  | VList _ | VTuple _ | VStr _ =>
      Exc (mkExn TypeError "indices must be integers")
  | _ => Exc (mkExn TypeError "object is not subscriptable")
  end.

(** Does [t] occur in [s] as a contiguous run of characters? *)
Fixpoint contains_str (t s : string) : bool :=
  if String.prefix t s then true
  else match s with
       | EmptyString => false
       | String _ s' => contains_str t s'
       end.

(** [k in v] for a string [k]: key membership in a mapping, element
    membership in a list or tuple, substring test in a string. *)
Definition py_contains (k : string) (v : pyval) : res bool :=
  match v with
  | VDict kvs => Val (match assoc k kvs with Some _ => true | None => false end)
  | VList xs | VTuple xs =>
      Val (existsb (fun x => match x with VStr s => String.eqb s k | _ => false end) xs)
  | VStr s => Val (contains_str k s)
  | _ => Exc (mkExn TypeError "argument is not iterable")
  end.

(* ------------------------------------------------------------------ *)
(** ** String conversion *)

(** Characters that need to be named by code: the double quote and the
    backslash. *)
Definition dquote : ascii := ascii_of_nat 34.
Definition squote : ascii := "'"%char.
Definition backslash : ascii := ascii_of_nat 92.

Fixpoint mentions (c : ascii) (s : string) : bool :=
  match s with
  | EmptyString => false
  | String d s' => Ascii.eqb c d || mentions c s'
  end.

(** [repr] of a string is delimited by single quotes unless the string has a
    single quote and no double quote. *)
Definition repr_quote (s : string) : ascii :=
  if mentions squote s && negb (mentions dquote s) then dquote else squote.

Definition hex_digit (n : nat) : ascii :=
  match String.get n "0123456789abcdef" with
  | Some c => c
  | None => "0"%char
  end.

(** Code points below 256 that [repr] writes as a [\xhh] escape: the
    controls, DEL, the C1 block with the no-break space, and the soft
    hyphen. *)
Definition unprintable (n : nat) : bool :=
  (Nat.ltb n 32 || Nat.eqb n 127 || (Nat.leb 128 n && Nat.leb n 160) || Nat.eqb n 173)%bool.

Definition repr_char (q c : ascii) : string :=
  let n := nat_of_ascii c in
  if (Ascii.eqb c q || Ascii.eqb c backslash)%bool then String backslash (String c "")
  else if Nat.eqb n 9 then String backslash "t"
  else if Nat.eqb n 10 then String backslash "n"
  else if Nat.eqb n 13 then String backslash "r"
  else if unprintable n then
    String backslash (String "x" (String (hex_digit (n / 16)) (String (hex_digit (n mod 16)) "")))
  else String c "".

Fixpoint repr_body (q : ascii) (s : string) : string :=
  match s with
  | EmptyString => ""
  | String c s' => repr_char q c ++ repr_body q s'
  end.

(** [repr(s)] for a string [s]. *)
Definition str_repr (s : string) : string :=
  let q := repr_quote s in
  String q (repr_body q s ++ String q "").

(** [repr(n)] for an integer: its decimal numeral. *)
Definition int_repr (n : Z) : string := NilZero.string_of_int (Z.to_int n).

(** [sep.join(parts)] *)
Fixpoint join (sep : string) (parts : list string) : string :=
  match parts with
  | [] => ""
  | [p] => p
  | p :: rest => p ++ sep ++ join sep rest
  end.

(** Runs [f] over a list from left to right; the first exception wins. *)
Definition mapM {A B : Type} (f : A -> res B) : list A -> res (list B) :=
  fix go (l : list A) : res (list B) :=
    match l with
    | [] => Val []
    | a :: rest => b <- f a ;; bs <- go rest ;; Val (b :: bs)
    end.

Definition tuple_text (parts : list string) : string :=
  match parts with
  | [p] => "(" ++ p ++ ",)"
  | _ => "(" ++ join ", " parts ++ ")"
  end.

(** [repr(v)].  A container shows the [repr] of its elements in order and
    raises what the first failing element raises. *)
Fixpoint py_repr (v : pyval) : res string :=
  match v with
  | VNone => Val "None"
  | VBool b => Val (if b then "True" else "False")
  | VInt n => Val (int_repr n)
  | VStr s => Val (str_repr s)
  | VList xs =>
      parts <- mapM py_repr xs ;; Val ("[" ++ join ", " parts ++ "]")
  | VTuple xs =>
      parts <- mapM py_repr xs ;; Val (tuple_text parts)
  | VDict kvs =>
      parts <- mapM (fun kv : string * pyval =>
                       let (k, x) := kv in
                       r <- py_repr x ;; Val (str_repr k ++ ": " ++ r)) kvs ;;
      Val ("{" ++ join ", " parts ++ "}")
  | VObj info _ => o_repr info
  end.

(** [str(v)]: a string is its own text, an object answers for itself, and
    every other built-in value is shown by [repr]. *)
Definition py_str (v : pyval) : res string :=
  match v with
  | VStr s => Val s
  | VObj info _ => o_str info
  | _ => py_repr v
  end.

(* ------------------------------------------------------------------ *)
(** ** The response extractor (src/new.py, [extract_text_from_response]) *)

(** A block of statements either leaves the function with a value or runs
    off its end. *)
Inductive flow : Type :=
| Return (v : pyval)
| Next.

(** Sequencing of two blocks: the second runs only when the first ran off
    its end. *)
Definition and_then (b1 b2 : res flow) : res flow :=
  match b1 with
  | Val Next => b2
  | _ => b1
  end.
Infix ";>>" := and_then (at level 62, right associativity) : py_scope.

(** [a and b] on conditions, with [b] evaluated only when [a] holds. *)
Definition cond_and (a : bool) (b : res bool) : res bool :=
  if a then b else Val false.

(** The direct [text] attribute. *)
Definition attempt_text (resp : pyval) : res flow :=
  text <- py_getattr resp "text" VNone ;;
  t <- truthy text ;;
  if t then Val (Return text) else Val Next.

(** What the inner [try] does with a first content element [c0]. *)
Definition probe_c0 (c0 : pyval) : res flow :=
  h <- py_hasattr c0 "text" ;;
  if h then v <- py_attr c0 "text" ;; Val (Return v)
  else
    d <- cond_and (is_dict c0) (py_contains "text" c0) ;;
    if d then v <- py_getitem_key c0 "text" ;; Val (Return v)
    else if is_str c0 then Val (Return c0)
    else Val Next.

(** What the inner [try] does with the first candidate's [content], once it
    is known to be truthy: only a non-empty list or tuple is looked into,
    and only at its first element. *)
Definition probe_content (content : pyval) : res flow :=
  ok <- cond_and (is_list_or_tuple content)
                 (n <- py_len content ;; Val (0 <? n)) ;;
  if ok then c0 <- py_getitem_int content 0 ;; probe_c0 c0
  else Val Next.

(** The body of the inner [try]: first candidate, then its [output_text] or
    its [content]. *)
Definition probe_candidates (candidates : pyval) : res flow :=
  first <- py_getitem_int candidates 0 ;;
  h <- py_hasattr first "output_text" ;;
  if h then v <- py_attr first "output_text" ;; Val (Return v)
  else
    content <- py_getattr first "content" VNone ;;
    tc <- truthy content ;;
    if tc then probe_content content else Val Next.

(** The [candidates] attribute; the inner [try] swallows every exception of
    its body and execution continues after it. *)
Definition attempt_candidates (resp : pyval) : res flow :=
  candidates <- py_getattr resp "candidates" VNone ;;
  t <- truthy candidates ;;
  if t then
    match probe_candidates candidates with
    | Val f => Val f
    | Exc _ => Val Next
    end
  else Val Next.

(** What the mapping branch does with a first content element [c0]. *)
Definition probe_key_c0 (c0 : pyval) : res flow :=
  d <- cond_and (is_dict c0) (py_contains "text" c0) ;;
  if d then v <- py_getitem_key c0 "text" ;; Val (Return v)
  else if is_str c0 then Val (Return c0)
  else Val Next.

(** What the mapping branch does with the first candidate [cand]: its
    [output_text], or the first element of a [content] that is a non-empty
    list. *)
Definition probe_key_cand (cand : pyval) : res flow :=
  if is_dict cand then
    o <- py_contains "output_text" cand ;;
    if o then v <- py_getitem_key cand "output_text" ;; Val (Return v)
    else
      c <- py_contains "content" cand ;;
      ok <- cond_and c
              (content <- py_getitem_key cand "content" ;;
               cond_and (is_list content) (truthy content)) ;;
      if ok then
        content <- py_getitem_key cand "content" ;;
        c0 <- py_getitem_int content 0 ;;
        probe_key_c0 c0
      else Val Next
  else Val Next.

(** The same walk by key lookup, for a mapping. *)
Definition attempt_mapping (resp : pyval) : res flow :=
  if is_dict resp then
    c <- py_contains "candidates" resp ;;
    ok <- cond_and c (cs <- py_getitem_key resp "candidates" ;; truthy cs) ;;
    if ok then
      cs <- py_getitem_key resp "candidates" ;;
      cand <- py_getitem_int cs 0 ;;
      probe_key_cand cand
    else Val Next
  else Val Next.

(** The three attempts in the order of the source. *)
Definition attempts (resp : pyval) : res flow :=
  attempt_text resp ;>> attempt_candidates resp ;>> attempt_mapping resp.

(** The body of the outer [try]. *)
Definition extract_try (resp : pyval) : res pyval :=
  match resp with
  | VNone => Val VNone
  | VStr _ => Val resp
  | _ =>
      f <- attempts resp ;;
      match f with
      | Return v => Val v
      | Next => s <- py_str resp ;; Val (VStr s)
      end
  end.

Definition placeholder : string := "(unable to extract text)".

(** The handler of the outer [try]: a second [str(resp)], and the fixed
    placeholder when that raises too. *)
Definition extract_rescue (resp : pyval) : pyval :=
  match py_str resp with
  | Val s => VStr s
  | Exc _ => VStr placeholder
  end.

Definition extract_text_from_response (resp : pyval) : res pyval :=
  match extract_try resp with
  | Val v => Val v
  | Exc _ => Val (extract_rescue resp)
  end.

(* ------------------------------------------------------------------ *)
(** ** The HTTP handler (src/new.py, [api_chat]) *)

(** Whitespace as [str.strip] sees it, for code points below 256. *)
Definition is_space (c : ascii) : bool :=
  let n := nat_of_ascii c in
  ((Nat.leb 9 n && Nat.leb n 13) || (Nat.leb 28 n && Nat.leb n 32)
   || Nat.eqb n 133 || Nat.eqb n 160)%bool.

Fixpoint lstrip (s : string) : string :=
  match s with
  | EmptyString => ""
  | String c s' => if is_space c then lstrip s' else s
  end.

Fixpoint rstrip (s : string) : string :=
  match s with
  | EmptyString => ""
  | String c s' =>
      match rstrip s' with
      | EmptyString => if is_space c then "" else String c ""
      | r => String c r
      end
  end.

(** [s.strip()] *)
Definition py_strip (s : string) : string := rstrip (lstrip s).

(** Can [json] serialise [v]?  Instances of user classes cannot. *)
Fixpoint json_ok (v : pyval) : bool :=
  match v with
  | VObj _ _ => false
  | VList xs | VTuple xs => forallb json_ok xs
  | VDict kvs => forallb (fun kv : string * pyval => let (_, x) := kv in json_ok x) kvs
  | _ => true
  end.

(** [jsonify(payload)]: the payload itself when it can be serialised, a
    [TypeError] otherwise. *)
Definition jsonify (payload : pyval) : res pyval :=
  if json_ok payload then Val payload
  else Exc (mkExn TypeError "Object is not JSON serializable").

(** The process-wide configuration read at start-up; [model] is [None] when
    no client could be built, and otherwise the client's
    [generate_content]. *)
Record config : Type := mkConfig {
  USE_MOCK : bool;
  DEBUG : bool;
  model : option (pyval -> res pyval)
}.

Record response : Type := mkResponse { status : Z; body : pyval }.

Definition error_response (code : Z) (msg : string) : response :=
  mkResponse code (VDict [("error", VStr msg)]).

Definition missing_field : response := error_response 400 "Missing 'message' field.".

Definition empty_message : response := error_response 400 "Empty message.".

Definition not_initialized : response :=
  error_response 500 "Model not initialized. Check server logs and API key.".

Definition mock_prefix : string := "(mock) I received: ".

Definition reply_response (reply : pyval) : response :=
  mkResponse 200 (VDict [("reply", reply)]).

(** [not a or b], with [b] evaluated only when [a] is true. *)
Definition not_or (a : bool) (b : res bool) : res bool :=
  if a then b else Val true.

(** The [try] block around the real call (lines 304-315), for a configured
    client: the call, the extraction and the serialisation of the reply all
    sit under the same handler. *)
Definition call_model (cfg : config) (generate_content : pyval -> res pyval)
    (user_message : pyval) : response :=
  match (resp <- generate_content user_message ;;
         reply_text <- extract_text_from_response resp ;;
         payload <- jsonify (VDict [("reply", reply_text)]) ;;
         Val (mkResponse 200 payload)) with
  | Val r => r
  | Exc e => error_response 500 (if DEBUG cfg then exn_str e else "Model error")
  end.

(** [api_chat], given what [request.get_json(silent=True)] returned ([None]
    for an absent or unparsable body).  The first component lists the
    prompts submitted to the model client; an outcome [Exc e] is an exception
    that leaves the view function. *)
Definition api_chat (cfg : config) (data : pyval) : list pyval * res response :=
  match (t <- truthy data ;;
         present <- cond_and t (py_contains "message" data) ;;
         if negb present then Val (inl missing_field)
         else
           user_message <- py_getitem_key data "message" ;;
           tm <- truthy user_message ;;
           blank <- not_or tm (s <- py_str user_message ;;
                               Val (String.eqb (py_strip s) "")) ;;
           if blank then Val (inl empty_message)
           else if USE_MOCK cfg then
             s <- py_str user_message ;;
             payload <- jsonify (VDict [("reply", VStr (mock_prefix ++ s))]) ;;
             Val (inl (mkResponse 200 payload))
           else Val (inr user_message)) with
  | Exc e => ([], Exc e)
  | Val (inl r) => ([], Val r)
  | Val (inr user_message) =>
      match model cfg with
      | None => ([], Val not_initialized)
      | Some generate_content =>
          ([user_message], Val (call_model cfg generate_content user_message))
      end
  end.

(* ------------------------------------------------------------------ *)
(** ** The command-line variant (src/GPTraw.py) *)

Definition error_reply : string :=
  "Sorry, I encountered an error processing your request.".

(** The line printed when the model call raises [e]; printed lines are kept
    as the bytes written to the terminal. *)
Definition warning (e : exn) : string :=
  "⚠ Error generating AI response: " ++ exn_str e.

(** [genai_response]: the lines printed and the value returned.  Writing to
    standard output is taken to succeed. *)
Definition genai_response (generate_content : pyval -> res pyval)
    (prompt : pyval) : list string * res pyval :=
  match (response <- generate_content prompt ;; py_attr response "text") with
  | Val text => ([], Val text)
  | Exc e => ([warning e], Val (VStr error_reply))
  end.

(** [speak_text], over an engine whose [say]-and-wait may raise: the lines
    printed. *)
Definition speak_text (engine : pyval -> res unit) (text : pyval) : list string :=
  match engine text with
  | Val _ => []
  | Exc e => ["⚠ Error with text-to-speech: " ++ exn_str e]
  end.

(** [s.lower()], for code points below 256. *)
Definition lower_char (c : ascii) : ascii :=
  let n := nat_of_ascii c in
  if ((Nat.leb 65 n && Nat.leb n 90)
      || (Nat.leb 192 n && Nat.leb n 222 && negb (Nat.eqb n 215)))%bool
  then ascii_of_nat (n + 32) else c.

Fixpoint py_lower (s : string) : string :=
  match s with
  | EmptyString => ""
  | String c s' => String (lower_char c) (py_lower s')
  end.

Definition exit_words : list string := ["exit"; "quit"; "stop"].

(** One turn of the main loop on the utterance that [listen_to_audio]
    returned: either the loop ends, or it goes on after printing some
    lines. *)
Inductive turn : Type :=
| Stop (printed : list string)
| Again (printed : list string).

Definition loop_turn (generate_content : pyval -> res pyval)
    (engine : pyval -> res unit) (user_input : string) : res turn :=
  if existsb (String.eqb (py_lower user_input)) exit_words then Val (Stop ["👋 Exiting..."])
  else if negb (String.eqb (py_strip user_input) "") then
    let (log, r) := genai_response generate_content (VStr user_input) in
    ai_output <- r ;;
    shown <- py_str ai_output ;;
    Val (Again (log ++ ["🤖 AI: " ++ shown] ++ speak_text engine ai_output))
  else Val (Again []).

(* ------------------------------------------------------------------ *)
(** ** Start-up (module level of src/new.py and src/GPTraw.py) *)

(** The process environment once [load_dotenv] has run. *)
Definition environ : Type := string -> option string.

(** [os.getenv(name, default)] *)
Definition getenv (env : environ) (name default : string) : string :=
  match env name with
  | Some v => v
  | None => default
  end.

Definition flag_words : list string := ["1"; "true"; "yes"].

(** [os.getenv(name, default).lower() in ("1", "true", "yes")] *)
Definition env_flag (env : environ) (name default : string) : bool :=
  existsb (String.eqb (py_lower (getenv env name default))) flag_words.

(** [if API_KEY:] on what [os.getenv("GOOGLE_API_KEY")] returned: the key,
    when it is set and not empty. *)
Definition api_key (env : environ) : option string :=
  match env "GOOGLE_API_KEY" with
  | Some key => if String.eqb key "" then None else Some key
  | None => None
  end.

Definition client : Type := pyval -> res pyval.

(** The [google.generativeai] package as the start-up code uses it: the
    import itself, [configure(api_key=...)], and the constructor
    [GenerativeModel(name)], whose value stands for the client's
    [generate_content]. *)
Record sdk : Type := mkSdk {
  sdk_import : res unit;
  configure : string -> res unit;
  GenerativeModel : string -> res client
}.

(** Lines 33-40 of new.py: the preferred model name, then the older one,
    then no model. *)
Definition first_model (g : sdk) : option client :=
  match GenerativeModel g "gemini-2.5-flash" with
  | Val m => Some m
  | Exc _ =>
      match GenerativeModel g "gemini-1.5" with
      | Val m => Some m
      | Exc _ => None
      end
  end.

Definition import_warning (e : exn) : string :=
  "Warning: google.generativeai import failed or initialization failed: " ++ exn_str e.

(** Lines 20-47 of new.py: the lines printed and the configuration the
    views run under. *)
Definition startup (env : environ) (g : sdk) : list string * config :=
  let debug := env_flag env "DEBUG" "1" in
  if env_flag env "USE_MOCK" "0" then ([], mkConfig true debug None)
  else
    match (_ <- sdk_import g ;;
           match api_key env with
           | Some key => _ <- configure g key ;; Val (Some (first_model g))
           | None => Val None
           end) with
    | Val (Some m) => ([], mkConfig false debug m)
    | Val None => ([], mkConfig true debug None)
    | Exc e => ([import_warning e], mkConfig true debug None)
    end.

(** The web application as a whole: start-up, then the view on a parsed
    body. *)
Definition serve (env : environ) (g : sdk) (data : pyval) : list pyval * res response :=
  api_chat (snd (startup env g)) data.

Definition newline : string := String (ascii_of_nat 10) "".

Definition missing_key_message : string :=
  "❌ GOOGLE_API_KEY not found!" ++ newline
  ++ "Set it in your system environment OR create a .env file with:" ++ newline
  ++ "GOOGLE_API_KEY=your_api_key_here".

(** Lines 5-25 of GPTraw.py: the client the loop talks to, or the exception
    that ends the process before the loop starts. *)
Definition cli_startup (env : environ) (g : sdk) : res client :=
  _ <- sdk_import g ;;
  match api_key env with
  | None => Exc (mkExn ValueError missing_key_message)
  | Some key => _ <- configure g key ;; GenerativeModel g "gemini-1.5-flash"
  end.

(* ------------------------------------------------------------------ *)
(** ** Listening and the main loop (src/GPTraw.py) *)

(** What the microphone and the recognition service do in one call of
    [listen_to_audio]: opening the microphone, adjusting and listening, and
    [recognize_google] on the audio. *)
Record hearing : Type := mkHearing {
  mic_open : res unit;
  mic_listen : res unit;
  recognized : res string
}.

(** An exception of a library class is told by the name of its class. *)
Definition is_class (name : string) (e : exn) : bool :=
  match exn_cls e with
  | OtherError n => String.eqb n name
  | _ => false
  end.

Definition listening : string := "🎤 Listening...".

(** [listen_to_audio]: the lines printed, and the text returned or the
    exception that leaves the function. *)
Definition listen_to_audio (h : hearing) : list string * res string :=
  match mic_open h with
  | Exc e => ([], Exc e)
  | Val _ =>
      match mic_listen h with
      | Exc e => ([listening], Exc e)
      | Val _ =>
          match recognized h with
          | Val text => ([listening; "🗣 You said: " ++ text], Val text)
          | Exc e =>
              if is_class "UnknownValueError" e then
                ([listening; "⚠ Sorry, I could not understand the audio."], Val "")
              else if is_class "RequestError" e then
                ([listening; "⚠ Could not request results; " ++ exn_str e], Val "")
              else ([listening], Exc e)
          end
      end
  end.

(** How a run of the loop over finitely many hearings ends: by an exit
    word, by an exception, or still listening when the hearings are used
    up. *)
Inductive ending : Type :=
| Exited
| Crashed (e : exn)
| Listening.

(** The [while True] loop over the hearings of successive turns. *)
Fixpoint main_loop (generate_content : client) (engine : pyval -> res unit)
    (hs : list hearing) : list string * ending :=
  match hs with
  | [] => ([], Listening)
  | h :: rest =>
      let (heard, r) := listen_to_audio h in
      match r with
      | Exc e => (heard, Crashed e)
      | Val user_input =>
          match loop_turn generate_content engine user_input with
          | Exc e => (heard, Crashed e)
          | Val (Stop printed) => ((heard ++ printed)%list, Exited)
          | Val (Again printed) =>
              let (later, e) := main_loop generate_content engine rest in
              ((heard ++ printed ++ later)%list, e)
          end
      end
  end.

Definition banner : list string :=
  ["🤖 Voice AI Assistant Started!";
   "Say 'exit', 'quit', or 'stop' to end the conversation."].

(** The [__main__] block of GPTraw.py. *)
Definition cli_main (generate_content : client) (engine : pyval -> res unit)
    (hs : list hearing) : list string * ending :=
  let (printed, e) := main_loop generate_content engine hs in
  ((banner ++ printed)%list, e).

(* ------------------------------------------------------------------ *)
(** ** Induction on values *)

(** Structural induction that reaches the elements of lists and tuples and
    the values of mappings; objects are leaves. *)
Section NestedInduction.

Variable P : pyval -> Prop.
Hypothesis case_None : P VNone.
Hypothesis case_Bool : forall b, P (VBool b).
Hypothesis case_Int : forall n, P (VInt n).
Hypothesis case_Str : forall s, P (VStr s).
Hypothesis case_List : forall xs, Forall P xs -> P (VList xs).
Hypothesis case_Tuple : forall xs, Forall P xs -> P (VTuple xs).
Hypothesis case_Dict :
  forall kvs, Forall (fun kv : string * pyval => P (snd kv)) kvs -> P (VDict kvs).
Hypothesis case_Obj : forall info attrs, P (VObj info attrs).

Fixpoint pyval_nested_ind (v : pyval) : P v :=
  match v with
  | VNone => case_None
  | VBool b => case_Bool b
  | VInt n => case_Int n
  | VStr s => case_Str s
  | VList xs =>
      case_List xs
        ((fix all (l : list pyval) : Forall P l :=
            match l with
            | [] => Forall_nil P
            | x :: rest => Forall_cons x (pyval_nested_ind x) (all rest)
            end) xs)
  | VTuple xs =>
      case_Tuple xs
        ((fix all (l : list pyval) : Forall P l :=
            match l with
            | [] => Forall_nil P
            | x :: rest => Forall_cons x (pyval_nested_ind x) (all rest)
            end) xs)
  | VDict kvs =>
      case_Dict kvs
        ((fix all (l : list (string * pyval))
            : Forall (fun kv : string * pyval => P (snd kv)) l :=
            match l with
            | [] => Forall_nil _
            | (k, x) :: rest =>
                Forall_cons (P := fun kv : string * pyval => P (snd kv))
                  (k, x) (pyval_nested_ind x) (all rest)
            end) kvs)
  | VObj info attrs => case_Obj info attrs
  end.

End NestedInduction.

(* ------------------------------------------------------------------ *)
(** ** Reply shapes and sample values *)

(** The nested shapes of the claims, as objects and as mappings; [more] and
    [rest] are the content elements and candidates after the first. *)
Definition obj_part (i : objinfo) (x : pyval) : pyval :=
  VObj i [("text", Val x)].

Definition obj_candidate (i : objinfo) (content : pyval) : pyval :=
  VObj i [("content", Val content)].

Definition obj_reply (i : objinfo) (candidates : pyval) : pyval :=
  VObj i [("candidates", Val candidates)].

Definition map_part (x : pyval) : pyval := VDict [("text", x)].

Definition map_candidate (content : pyval) : pyval := VDict [("content", content)].

Definition map_reply (candidates : pyval) : pyval := VDict [("candidates", candidates)].

Definition plain_info : objinfo := mkInfo (Val "<object>") (Val "<object>") (Val true).

(** An SDK-like reply whose [text] property raises, as a blocked generation
    does. *)
Definition blocked_reply : pyval :=
  VObj (mkInfo (Val "<GenerateContentResponse>") (Val "<GenerateContentResponse>") (Val true))
       [("text", Exc (mkExn ValueError "no valid part"))].


Definition quota_exceeded : exn := mkExn (OtherError "ResourceExhausted") "quota exceeded".

Definition timeout_error : exn := mkExn (OtherError "DeadlineExceeded") "deadline exceeded".

(** An internal failure of the extraction: an exception that reaches the
    outer handler, or one that the inner [try] swallows. *)
Inductive failure_inside (resp : pyval) : Prop :=
| outer_failure (e : exn) :
    extract_try resp = Exc e -> failure_inside resp
| inner_failure (candidates : pyval) (e : exn) :
    attempt_text resp = Val Next ->
    py_getattr resp "candidates" VNone = Val candidates ->
    truthy candidates = Val true ->
    probe_candidates candidates = Exc e ->
    failure_inside resp.

(* ------------------------------------------------------------------ *)
(** ** Predicates of the statements and further sample values *)

(** Does the view raise on the parsed body [data]?  The bodies are the ones
    this model has: [null], a boolean, an integer, a string, a list or a
    mapping; a body that is a floating-point number is outside it. *)
Definition crashing_body (data : pyval) : bool :=
  match data with
  | VBool b => b
  | VInt n => negb (Z.eqb n 0)
  | VStr s => contains_str "message" s
  | VList xs | VTuple xs =>
      existsb (fun x => match x with VStr s => String.eqb s "message" | _ => false end) xs
  | _ => false
  end.

(** The two failures of recognition that [listen_to_audio] handles. *)
Definition unheard (e : exn) : bool :=
  (is_class "UnknownValueError" e || is_class "RequestError" e)%bool.

(** A hearing the loop gets through: the microphone works and recognition
    returns a text or fails in one of the two handled ways. *)
Definition audible (h : hearing) : Prop :=
  mic_open h = Val tt /\ mic_listen h = Val tt
  /\ ((exists u, recognized h = Val u)
      \/ exists e, recognized h = Exc e /\ unheard e = true).

(** A client whose reply text, whenever it has one, can be printed. *)
Definition printable_replies (generate_content : client) : Prop :=
  forall prompt response text,
    generate_content prompt = Val response ->
    py_attr response "text" = Val text ->
    exists s, py_str text = Val s.

(** A package whose every operation succeeds and whose clients answer with
    an object that has the given text. *)
Definition answering (text : string) : client :=
  fun _ => Val (VObj plain_info [("text", Val (VStr text))]).

Definition working_sdk : sdk :=
  mkSdk (Val tt) (fun _ => Val tt) (fun _ => Val (answering "Hi there")).

Definition no_environment : environ := fun _ => None.

(** An environment that sets the key and nothing else. *)
Definition keyed_environment : environ :=
  fun name => if String.eqb name "GOOGLE_API_KEY" then Some "secret" else None.

(** A package that only knows the older model name. *)
Definition fallback_sdk : sdk :=
  mkSdk (Val tt) (fun _ => Val tt)
    (fun name =>
       if String.eqb name "gemini-1.5" then Val (answering "Hi there")
       else Exc (mkExn ValueError "unknown model")).

(** A package whose clients always time out. *)
Definition timing_out_sdk : sdk :=
  mkSdk (Val tt) (fun _ => Val tt) (fun _ => Val (fun _ => Exc timeout_error)).

Definition heard (u : string) : hearing := mkHearing (Val tt) (Val tt) (Val u).

Definition garbled : hearing :=
  mkHearing (Val tt) (Val tt) (Exc (mkExn (OtherError "UnknownValueError") "")).

Definition no_microphone : hearing :=
  mkHearing (Exc (mkExn (OtherError "OSError") "No Default Input Device Available"))
    (Val tt) (Val "").

(* ------------------------------------------------------------------ *)
(** * Properties of the extractor *)

Section ExtractorFacts.



Lemma attempt_mapping_not_dict (resp : pyval) :
  is_dict resp = false -> attempt_mapping resp = Val Next.
Proof. unfold attempt_mapping. intros ->. reflexivity. Qed.


(** The inner [try] never lets an exception out. *)
Lemma attempt_candidates_swallows (resp candidates : pyval) (e : exn) :
  py_getattr resp "candidates" VNone = Val candidates ->
  truthy candidates = Val true ->
  probe_candidates candidates = Exc e ->
  attempt_candidates resp = Val Next.
Proof.
  intros Hg Ht Hp. unfold attempt_candidates.
  rewrite Hg. cbn. rewrite Ht. cbn. rewrite Hp. reflexivity.
Qed.

(** Only an object has truthy candidates. *)
Lemma truthy_candidates_object (resp candidates : pyval) :
  py_getattr resp "candidates" VNone = Val candidates ->
  truthy candidates = Val true ->
  exists info attrs, resp = VObj info attrs.
Proof.
  intros Hg Ht.
  destruct resp; try (cbn in Hg; inversion Hg; subst; discriminate Ht).
  eauto.
Qed.

Lemma rescue_cases (resp : pyval) :
  extract_rescue resp = VStr placeholder
  \/ exists s, py_str resp = Val s /\ extract_rescue resp = VStr s.
Proof.
  unfold extract_rescue. destruct (py_str resp) as [s|e].
  - right. exists s. split; reflexivity.
  - left. reflexivity.
Qed.

(** Past the two guards, the body of the outer [try] is the attempts
    followed by the conversion. *)
Lemma extract_try_unfold (resp : pyval) :
  resp <> VNone -> is_str resp = false ->
  extract_try resp =
  (f <- attempts resp ;;
   match f with
   | Return v => Val v
   | Next => s <- py_str resp ;; Val (VStr s)
   end).
Proof.
  intros Hn Hs. destruct resp; try reflexivity; try congruence; discriminate Hs.
Qed.

(** When the attempts run off their end, the outcome is the rescue value
    whether or not [str] raises. *)
Lemma extract_after_Next (resp : pyval) :
  resp <> VNone -> is_str resp = false ->
  attempts resp = Val Next ->
  extract_text_from_response resp = Val (extract_rescue resp).
Proof.
  intros Hn Hs Ha. unfold extract_text_from_response, extract_rescue.
  rewrite (extract_try_unfold _ Hn Hs), Ha. cbn [bind].
  destruct (py_str resp); reflexivity.
Qed.

Lemma extract_after_Exc (resp : pyval) (e : exn) :
  resp <> VNone -> is_str resp = false ->
  attempts resp = Exc e ->
  extract_text_from_response resp = Val (extract_rescue resp).
Proof.
  intros Hn Hs Ha. unfold extract_text_from_response.
  rewrite (extract_try_unfold _ Hn Hs), Ha. reflexivity.
Qed.

Lemma extract_after_Return (resp v : pyval) :
  resp <> VNone -> is_str resp = false ->
  attempts resp = Val (Return v) ->
  extract_text_from_response resp = Val v.
Proof.
  intros Hn Hs Ha. unfold extract_text_from_response.
  rewrite (extract_try_unfold _ Hn Hs), Ha. reflexivity.
Qed.

End ExtractorFacts.

(** C1.  [extract_text_from_response] returns a value on every input and
    never raises; whenever an exception occurs inside it, whether it reaches
    the outer handler or is swallowed by the inner [try], the value returned
    is the input's string representation or, when [str] raises as well, the
    fixed placeholder. *)
Theorem extract_never_raises (resp : pyval) :
  (exists v, extract_text_from_response resp = Val v)
  /\ (failure_inside resp ->
      extract_text_from_response resp = Val (VStr placeholder)
      \/ exists s, py_str resp = Val s
                   /\ extract_text_from_response resp = Val (VStr s)).
Proof.
  split.
  - unfold extract_text_from_response.
    destruct (extract_try resp) as [v|e]; eauto.
  - intros Hfail.
    assert (Hres : extract_text_from_response resp = Val (extract_rescue resp)).
    { destruct Hfail as [e He | candidates e Htext Hget Htrue Hprobe].
      - unfold extract_text_from_response. rewrite He. reflexivity.
      - destruct (truthy_candidates_object _ _ Hget Htrue) as (info & attrs & ->).
        apply extract_after_Next; try discriminate; try reflexivity.
        unfold attempts. rewrite Htext. cbn [and_then].
        rewrite (attempt_candidates_swallows _ _ _ Hget Htrue Hprobe).
        cbn [and_then]. now apply attempt_mapping_not_dict. }
    rewrite Hres.
    destruct (rescue_cases resp) as [-> | (s & Hs & ->)]; eauto.
Qed.

Lemma extract_never_raises_witness :
  failure_inside blocked_reply
  /\ extract_text_from_response blocked_reply = Val (VStr "<GenerateContentResponse>").
Proof.
  assert (Hf : failure_inside blocked_reply).
  { apply outer_failure with (e := mkExn ValueError "no valid part"). reflexivity. }
  split; [exact Hf|].
  destruct (proj2 (extract_never_raises blocked_reply) Hf) as [H | (s & _ & H)].
  - discriminate H.
  - reflexivity.
Defined.

(** C9.  On [None] the extractor returns [None] itself: not a string, hence
    neither the string representation ["None"] nor the placeholder. *)
Theorem extract_None :
  extract_text_from_response VNone = Val VNone
  /\ py_str VNone = Val "None"
  /\ (forall s, extract_text_from_response VNone <> Val (VStr s)).
Proof.
  repeat split.
  intros s H. discriminate H.
Qed.

(** A string is truthy exactly when it is not empty. *)
Lemma truthy_string (s : string) : truthy (VStr s) = Val true <-> s <> "".
Proof.
  cbn [truthy]. split.
  - intros H ->. discriminate H.
  - intros H. apply String.eqb_neq in H. rewrite H. reflexivity.
Qed.

Section DirectText.

Variables (info : objinfo) (attrs : list (string * res pyval)) (v : pyval).
Hypothesis text_field : assoc "text" attrs = Some (Val v).
Hypothesis text_truthy : truthy v = Val true.

Lemma attempt_text_direct : attempt_text (VObj info attrs) = Val (Return v).
Proof.
  unfold attempt_text, py_getattr, py_attr.
  rewrite text_field. cbn [bind]. rewrite text_truthy. reflexivity.
Qed.

Lemma attempts_direct : attempts (VObj info attrs) = Val (Return v).
Proof. unfold attempts. rewrite attempt_text_direct. reflexivity. Qed.

End DirectText.

(** C5.  An object whose [text] attribute holds a truthy value, a non-empty
    string in particular, yields that value whatever else its attribute
    table holds. *)
Theorem extract_direct_text (info : objinfo) (attrs : list (string * res pyval))
    (v : pyval) :
  assoc "text" attrs = Some (Val v) ->
  truthy v = Val true ->
  extract_text_from_response (VObj info attrs) = Val v.
Proof.
  intros Hfield Htruthy.
  apply extract_after_Return; try discriminate; try reflexivity.
  now apply attempts_direct.
Qed.

Lemma extract_direct_text_witness :
  extract_text_from_response
    (VObj plain_info
       [("candidates", Val (VList [VDict [("output_text", VStr "other")]]));
        ("text", Val (VStr "hello"))])
  = Val (VStr "hello").
Proof.
  apply (extract_direct_text plain_info
           [("candidates", Val (VList [VDict [("output_text", VStr "other")]]));
            ("text", Val (VStr "hello"))]
           (VStr "hello")); reflexivity.
Defined.

(** C3.  For the shape candidates / content / text, given with objects
    throughout or with mappings throughout, the extractor returns the text
    of the first content element of the first candidate. *)
Theorem extract_nested_text (x : pyval) (i0 i1 i2 : objinfo)
    (more rest more' rest' : list pyval) :
  extract_text_from_response
    (obj_reply i0 (VList (obj_candidate i1 (VList (obj_part i2 x :: more)) :: rest)))
  = Val x
  /\ extract_text_from_response
       (map_reply (VList (map_candidate (VList (map_part x :: more')) :: rest')))
     = Val x.
Proof. split; reflexivity. Qed.

(** A plain string is returned unchanged. *)
Lemma extract_plain_string (s : string) :
  extract_text_from_response (VStr s) = Val (VStr s).
Proof. reflexivity. Qed.

(** The first content element may also be a mapping with the key [text], or
    a plain string, and the content may be a tuple. *)
Lemma extract_nested_variants (x : pyval) (t : string) (i0 i1 : objinfo)
    (more rest : list pyval) :
  extract_text_from_response
    (obj_reply i0 (VList (obj_candidate i1 (VList (map_part x :: more)) :: rest)))
  = Val x
  /\ extract_text_from_response
       (obj_reply i0 (VList (obj_candidate i1 (VTuple (VStr t :: more)) :: rest)))
     = Val (VStr t)
  /\ extract_text_from_response
       (map_reply (VList (map_candidate (VList (VStr t :: more)) :: rest)))
     = Val (VStr t).
Proof. repeat split. Qed.

Section FirstOnly.

(** What the attempts find does not depend on the candidates after the
    first. *)
Lemma attempts_ignore_later_candidates_obj (i : objinfo)
    (attrs : list (string * res pyval)) (first : pyval) (rest rest' : list pyval) :
  attempts (VObj i (("candidates", Val (VList (first :: rest))) :: attrs))
  = attempts (VObj i (("candidates", Val (VList (first :: rest'))) :: attrs)).
Proof. reflexivity. Qed.

Lemma attempts_ignore_later_candidates_map (kvs : list (string * pyval))
    (first : pyval) (rest rest' : list pyval) :
  attempts (VDict (("candidates", VList (first :: rest)) :: kvs))
  = attempts (VDict (("candidates", VList (first :: rest')) :: kvs)).
Proof. reflexivity. Qed.

(** Nor does it depend on the content elements after the first. *)
Lemma probe_content_ignores_later (c0 : pyval) (more more' : list pyval) :
  probe_content (VList (c0 :: more)) = probe_content (VList (c0 :: more'))
  /\ probe_content (VTuple (c0 :: more)) = probe_content (VTuple (c0 :: more')).
Proof. split; reflexivity. Qed.

Lemma probe_key_cand_ignores_later (kvs : list (string * pyval))
    (c0 : pyval) (more more' : list pyval) :
  probe_key_cand (VDict (("content", VList (c0 :: more)) :: kvs))
  = probe_key_cand (VDict (("content", VList (c0 :: more')) :: kvs)).
Proof. reflexivity. Qed.

End FirstOnly.

(** C4.  When the first candidate carries [output_text], as an attribute of
    an object or as a key of a mapping, the extractor returns it for every
    list of later candidates; and in general what the attempts find is the
    same for all candidates and all content elements after the first. *)
Theorem extract_first_output_text (y : pyval) (i0 i1 : objinfo)
    (others : list (string * res pyval)) (others' : list (string * pyval))
    (rest rest' : list pyval) :
  extract_text_from_response
    (obj_reply i0 (VList (VObj i1 (("output_text", Val y) :: others) :: rest)))
  = Val y
  /\ extract_text_from_response
       (map_reply (VList (VDict (("output_text", y) :: others') :: rest')))
     = Val y
  /\ (forall i attrs first l l',
        attempts (VObj i (("candidates", Val (VList (first :: l))) :: attrs))
        = attempts (VObj i (("candidates", Val (VList (first :: l'))) :: attrs)))
  /\ (forall kvs first l l',
        attempts (VDict (("candidates", VList (first :: l)) :: kvs))
        = attempts (VDict (("candidates", VList (first :: l')) :: kvs)))
  /\ (forall c0 l l',
        probe_content (VList (c0 :: l)) = probe_content (VList (c0 :: l')))
  /\ (forall kvs c0 l l',
        probe_key_cand (VDict (("content", VList (c0 :: l)) :: kvs))
        = probe_key_cand (VDict (("content", VList (c0 :: l')) :: kvs))).
Proof.
  split; [reflexivity|].
  split; [reflexivity|].
  split; [intros; apply attempts_ignore_later_candidates_obj|].
  split; [intros; apply attempts_ignore_later_candidates_map|].
  split; [intros; apply probe_content_ignores_later|].
  intros; apply probe_key_cand_ignores_later.
Qed.

Section Checks.

(** A candidates entry that cannot be subscripted: the failure of the key
    walk reaches the outer handler, which answers with [str(resp)]. *)
Example check_bad_candidates_key :
  extract_text_from_response (VDict [("candidates", VInt 5)])
  = Val (VStr "{'candidates': 5}").
Proof. reflexivity. Qed.

(** The same under an attribute: the inner [try] swallows the failure. *)
Example check_bad_candidates_attribute :
  extract_text_from_response (obj_reply plain_info (VInt 5)) = Val (VStr "<object>").
Proof. reflexivity. Qed.

(** An object candidate under a mapping is not looked into. *)
Example check_mixed_shape :
  extract_text_from_response
    (map_reply (VList [obj_candidate plain_info (VList [obj_part plain_info (VStr "X")])]))
  = Val (VStr "{'candidates': [<object>]}").
Proof. reflexivity. Qed.

(** When [str] raises as well, the placeholder is what remains. *)
Example check_placeholder :
  extract_text_from_response
    (VObj (mkInfo (Exc (mkExn ValueError "no text")) (Val "<reply>") (Val true)) [])
  = Val (VStr placeholder).
Proof. reflexivity. Qed.

End Checks.

(** The claim of C2 as the specification words it fails on [None]: no attempt
    finds anything there, [str(None)] is ["None"], and yet the extractor
    hands [None] back. *)
Lemma fallback_not_for_None :
  ~ (forall (resp : pyval) (s : string),
       is_str resp = false ->
       (forall v, attempts resp <> Val (Return v)) ->
       py_str resp = Val s ->
       extract_text_from_response resp = Val (VStr s)).
Proof.
  intros H.
  assert (Hnone : extract_text_from_response VNone = Val (VStr "None")).
  { apply H; [reflexivity | intros v Hv; discriminate Hv | reflexivity]. }
  discriminate Hnone.
Qed.

(** Past the guards, an input on which no attempt returns ends in the
    rescue value: [str] of the input, or the placeholder. *)
Lemma extract_when_nothing_found (resp : pyval) :
  resp <> VNone ->
  is_str resp = false ->
  (forall v, attempts resp <> Val (Return v)) ->
  extract_text_from_response resp = Val (extract_rescue resp).
Proof.
  intros Hnone Hstr Hno.
  destruct (attempts resp) as [[v|]|e] eqn:Ha.
  - exfalso. apply (Hno v). reflexivity.
  - now apply extract_after_Next.
  - now apply extract_after_Exc with (e := e).
Qed.

(** C2, amended.  For every input other than [None] that is not a string
    and on which no attempt returns, the extractor yields the input's string
    representation, and the placeholder when that conversion raises. *)
Theorem extract_fallback (resp : pyval) :
  resp <> VNone ->
  is_str resp = false ->
  (forall v, attempts resp <> Val (Return v)) ->
  match py_str resp with
  | Val s => extract_text_from_response resp = Val (VStr s)
  | Exc _ => extract_text_from_response resp = Val (VStr placeholder)
  end.
Proof.
  intros Hnone Hstr Hno.
  rewrite (extract_when_nothing_found resp Hnone Hstr Hno).
  unfold extract_rescue.
  destruct (py_str resp); reflexivity.
Qed.

Lemma extract_fallback_witness :
  extract_text_from_response (VList [VInt 1; VStr "two"; VNone])
  = Val (VStr "[1, 'two', None]").
Proof.
  assert (Hne : VList [VInt 1; VStr "two"; VNone] <> VNone) by discriminate.
  assert (Hno : forall v, attempts (VList [VInt 1; VStr "two"; VNone]) <> Val (Return v)).
  { intros v Hv. discriminate Hv. }
  exact (extract_fallback (VList [VInt 1; VStr "two"; VNone]) Hne eq_refl Hno).
Defined.

(* ------------------------------------------------------------------ *)
(** * The string representation of a mapping is longer than its entries *)

Section ReprLength.

Local Open Scope nat_scope.








End ReprLength.




(* ------------------------------------------------------------------ *)
(** * Values that come from JSON *)

Section JsonValues.

Lemma mapM_cons {A B : Type} (f : A -> res B) (a : A) (l : list A) :
  mapM f (a :: l) = (b <- f a ;; bs <- mapM f l ;; Val (b :: bs)).
Proof. reflexivity. Qed.

(** [mapM] succeeds when its function does on every element. *)
Lemma mapM_total {A B : Type} (f : A -> res B) (l : list A) :
  Forall (fun a => exists b, f a = Val b) l -> exists bs, mapM f l = Val bs.
Proof.
  induction 1 as [|a l (b & Hb) _ (bs & Hbs)].
  - exists []. reflexivity.
  - exists (b :: bs). rewrite mapM_cons, Hb, Hbs. reflexivity.
Qed.

Lemma Forall_forallb {A : Type} (t : A -> bool) (Q : A -> Prop) (l : list A) :
  Forall (fun a => t a = true -> Q a) l -> forallb t l = true -> Forall Q l.
Proof.
  induction 1 as [|a l Ha _ IH]; intros Hall; [constructor|].
  cbn in Hall. apply andb_true_iff in Hall. destruct Hall as (Hj & Hrest).
  constructor; auto.
Qed.

(** A value that [json] can serialise has a [repr]. *)
Lemma py_repr_json (v : pyval) : json_ok v = true -> exists s, py_repr v = Val s.
Proof.
  induction v as [| b | n | s | xs IH | xs IH | kvs IH | info attrs]
    using pyval_nested_ind; intros Hj; try (eexists; reflexivity).
  - destruct (mapM_total py_repr xs) as (parts & Hp).
    { apply (Forall_forallb json_ok); assumption. }
    change (py_repr (VList xs))
      with (parts <- mapM py_repr xs ;; Val ("[" ++ join ", " parts ++ "]")).
    rewrite Hp. eexists; reflexivity.
  - destruct (mapM_total py_repr xs) as (parts & Hp).
    { apply (Forall_forallb json_ok); assumption. }
    change (py_repr (VTuple xs))
      with (parts <- mapM py_repr xs ;; Val (tuple_text parts)).
    rewrite Hp. eexists; reflexivity.
  - set (show := fun kv : string * pyval =>
                   let (k, x) := kv in
                   r <- py_repr x ;; Val (str_repr k ++ ": " ++ r)).
    destruct (mapM_total show kvs) as (parts & Hp).
    { apply (Forall_forallb (fun kv : string * pyval => let (_, x) := kv in json_ok x));
        [|exact Hj].
      eapply Forall_impl; [|exact IH].
      intros [k x] Hx Hok. destruct (Hx Hok) as (r & Hr).
      cbn in Hr. unfold show. rewrite Hr. eexists; reflexivity. }
    change (py_repr (VDict kvs))
      with (parts <- mapM show kvs ;; Val ("{" ++ join ", " parts ++ "}")).
    rewrite Hp. eexists; reflexivity.
  - discriminate Hj.
Qed.

Lemma py_str_json (v : pyval) : json_ok v = true -> exists s, py_str v = Val s.
Proof.
  intros Hj. destruct v; try (apply py_repr_json; exact Hj).
  - eexists; reflexivity.
  - discriminate Hj.
Qed.

Lemma truthy_json (v : pyval) : json_ok v = true -> exists b, truthy v = Val b.
Proof. intros Hj. destruct v; try (eexists; reflexivity). discriminate Hj. Qed.

Lemma assoc_json (kvs : list (string * pyval)) (k : string) (m : pyval) :
  json_ok (VDict kvs) = true -> assoc k kvs = Some m -> json_ok m = true.
Proof.
  cbn [json_ok]. induction kvs as [|[k' x] kvs IH]; intros Hj Ha; [discriminate Ha|].
  cbn in Hj, Ha. apply andb_true_iff in Hj. destruct Hj as (Hx & Hrest).
  destruct (String.eqb k k'); [injection Ha as <-; exact Hx | auto].
Qed.

End JsonValues.

(* ------------------------------------------------------------------ *)
(** * Properties of the HTTP handler *)

Section Validation.

Variable cfg : config.

Lemma assoc_nonempty {A : Type} (k : string) (l : list (string * A)) (a : A) :
  assoc k l = Some a -> nonempty l = true.
Proof. destruct l; intros H; [discriminate H | reflexivity]. Qed.

(** No body, an unparsable body, or a mapping without the key: 400 and no
    call. *)
Lemma api_chat_missing_message (data : pyval) :
  data = VNone \/ (exists kvs, data = VDict kvs /\ assoc "message" kvs = None) ->
  api_chat cfg data = ([], Val missing_field).
Proof.
  intros [-> | (kvs & -> & Hno)]; [reflexivity|].
  unfold api_chat. cbn [truthy bind].
  destruct kvs as [|kv kvs]; [reflexivity|].
  cbn [nonempty cond_and py_contains]. rewrite Hno. reflexivity.
Qed.

(** What the handler does with a mapping once the key is known to be
    there. *)
Lemma api_chat_message_present (kvs : list (string * pyval)) (m : pyval) :
  assoc "message" kvs = Some m ->
  api_chat cfg (VDict kvs) =
  match (tm <- truthy m ;;
         blank <- not_or tm (s <- py_str m ;; Val (String.eqb (py_strip s) "")) ;;
         if blank then Val (inl empty_message)
         else if USE_MOCK cfg then
           s <- py_str m ;;
           payload <- jsonify (VDict [("reply", VStr (mock_prefix ++ s))]) ;;
           Val (inl (mkResponse 200 payload))
         else Val (inr m)) with
  | Exc e => ([], Exc e)
  | Val (inl r) => ([], Val r)
  | Val (inr user_message) =>
      match model cfg with
      | None => ([], Val not_initialized)
      | Some generate_content =>
          ([user_message], Val (call_model cfg generate_content user_message))
      end
  end.
Proof.
  intros Hm. unfold api_chat.
  cbn [truthy bind py_contains py_getitem_key].
  rewrite (assoc_nonempty _ _ _ Hm), Hm. reflexivity.
Qed.

(** A message that is an empty or whitespace-only string: 400 and no
    call. *)
Lemma api_chat_blank_message (kvs : list (string * pyval)) (s : string) :
  assoc "message" kvs = Some (VStr s) ->
  py_strip s = "" ->
  api_chat cfg (VDict kvs) = ([], Val empty_message).
Proof.
  intros Hm Hblank. rewrite (api_chat_message_present kvs (VStr s) Hm).
  cbn [truthy bind py_str].
  destruct (String.eqb s "") eqn:Hs; cbn [negb not_or bind].
  - reflexivity.
  - rewrite Hblank. reflexivity.
Qed.

End Validation.

Lemma api_chat_missing_message_witness :
  api_chat (mkConfig false true None) (VDict [("msg", VStr "hi")])
  = ([], Val missing_field).
Proof.
  apply (api_chat_missing_message (mkConfig false true None) (VDict [("msg", VStr "hi")])).
  right. exists [("msg", VStr "hi")]. split; reflexivity.
Defined.

Lemma api_chat_blank_message_witness :
  api_chat (mkConfig false true None) (VDict [("message", VStr "   ")])
  = ([], Val empty_message).
Proof.
  apply (api_chat_blank_message (mkConfig false true None)
           [("message", VStr "   ")] "   "); reflexivity.
Defined.

(** On a body that is a mapping of JSON values the view always answers with
    a response and raises nothing. *)
Lemma api_chat_answers_mappings (cfg : config) (kvs : list (string * pyval)) :
  json_ok (VDict kvs) = true ->
  exists calls r, api_chat cfg (VDict kvs) = (calls, Val r).
Proof.
  intros Hj.
  destruct (assoc "message" kvs) as [m|] eqn:Hm.
  - rewrite (api_chat_message_present cfg kvs m Hm).
    pose proof (assoc_json kvs "message" m Hj Hm) as Hjm.
    destruct (truthy_json m Hjm) as (tm & ->).
    destruct (py_str_json m Hjm) as (s & Hs).
    cbn [bind]. destruct tm; cbn [not_or bind].
    + rewrite Hs. cbn [bind].
      destruct (String.eqb (py_strip s) ""); [eauto|].
      destruct (USE_MOCK cfg); [cbn; eauto|].
      destruct (model cfg); eauto.
    + eauto.
  - unfold api_chat. cbn [truthy bind].
    destruct kvs as [|kv kvs]; [cbn; eauto|].
    cbn [nonempty cond_and py_contains]. rewrite Hm. cbn. eauto.
Qed.

Lemma api_chat_answers_mappings_witness :
  exists calls r,
    api_chat (mkConfig false true None)
      (VDict [("message", VList [VInt 1; VNone]); ("lang", VStr "en")])
    = (calls, Val r).
Proof.
  apply (api_chat_answers_mappings (mkConfig false true None)
           [("message", VList [VInt 1; VNone]); ("lang", VStr "en")]).
  reflexivity.
Defined.

(** C6.  The check for a missing field raises instead of answering 400 when
    the parsed body is not a mapping: on the JSON number [5] and on [true]
    the membership test raises [TypeError], and on the JSON texts
    [["message"]] and ["message"] membership holds and the subscript raises;
    the exception leaves the view and no 400 response is produced. *)
Theorem api_chat_non_mapping_body (cfg : config) :
  api_chat cfg (VInt 5) = ([], Exc (mkExn TypeError "argument is not iterable"))
  /\ api_chat cfg (VBool true) = ([], Exc (mkExn TypeError "argument is not iterable"))
  /\ api_chat cfg (VList [VStr "message"]) = ([], Exc (mkExn TypeError "indices must be integers"))
  /\ api_chat cfg (VStr "message") = ([], Exc (mkExn TypeError "indices must be integers")).
Proof. repeat split. Qed.

Section Mock.

Local Open Scope nat_scope.

Lemma prefix_refl (s : string) : String.prefix s s = true.
Proof.
  induction s as [|c s IH]; simpl; [reflexivity|].
  destruct (ascii_dec c c); [assumption | congruence].
Qed.

Lemma contains_str_unfold (t s : string) :
  contains_str t s =
  if String.prefix t s then true
  else match s with
       | EmptyString => false
       | String _ s' => contains_str t s'
       end.
Proof. destruct s; reflexivity. Qed.

Lemma contains_str_refl (s : string) : contains_str s s = true.
Proof. rewrite contains_str_unfold, prefix_refl. reflexivity. Qed.

(** A text occurs in every text that ends with it. *)
Lemma contains_str_app (p s : string) : contains_str s (p ++ s) = true.
Proof.
  induction p as [|c p IH].
  - apply contains_str_refl.
  - rewrite contains_str_unfold. cbn [append]. rewrite IH.
    destruct (String.prefix s (String c (p ++ s))); reflexivity.
Qed.

End Mock.

(** The claim of C7 as the specification words it fails on a message that is
    not empty but blank: the handler answers 400. *)
Lemma mock_rejects_blank_message :
  ~ (forall (cfg : config) (s : string),
       USE_MOCK cfg = true ->
       s <> "" ->
       exists reply,
         api_chat cfg (VDict [("message", VStr s)])
         = ([], Val (reply_response (VStr reply)))
         /\ contains_str s reply = true).
Proof.
  intros H.
  destruct (H (mkConfig true true None) " " eq_refl) as (reply & Heq & _).
  - discriminate.
  - discriminate Heq.
Qed.

(** C7, amended.  In mock mode, a message that is truthy and whose text is
    not blank gets status 200 with the reply [(mock) I received: ] followed
    by that text, which therefore contains it, and no prompt reaches the
    model client. *)
Theorem mock_reply_echoes (cfg : config) (kvs : list (string * pyval))
    (m : pyval) (s : string) :
  USE_MOCK cfg = true ->
  assoc "message" kvs = Some m ->
  truthy m = Val true ->
  py_str m = Val s ->
  py_strip s <> "" ->
  api_chat cfg (VDict kvs) = ([], Val (reply_response (VStr (mock_prefix ++ s))))
  /\ contains_str s (mock_prefix ++ s) = true.
Proof.
  intros Hmock Hm Htruthy Hstr Hblank. split.
  - rewrite (api_chat_message_present cfg kvs m Hm).
    rewrite Htruthy. cbn [bind not_or]. rewrite Hstr. cbn [bind].
    apply String.eqb_neq in Hblank. rewrite Hblank, Hmock.
    reflexivity.
  - apply contains_str_app.
Qed.

Lemma mock_reply_echoes_witness :
  api_chat (mkConfig true false None) (VDict [("message", VStr "hello")])
  = ([], Val (reply_response (VStr "(mock) I received: hello")))
  /\ contains_str "hello" "(mock) I received: hello" = true.
Proof.
  apply (mock_reply_echoes (mkConfig true false None)
           [("message", VStr "hello")] (VStr "hello") "hello");
    try reflexivity.
  discriminate.
Defined.

Section RealCall.

Variables (cfg : config) (kvs : list (string * pyval)) (m : pyval) (s : string).
Hypothesis live : USE_MOCK cfg = false.
Hypothesis message_bound : assoc "message" kvs = Some m.
Hypothesis message_truthy : truthy m = Val true.
Hypothesis message_text : py_str m = Val s.
Hypothesis message_not_blank : py_strip s <> "".

(** Outside mock mode a valid message reaches the [try] block. *)
Lemma api_chat_live :
  api_chat cfg (VDict kvs) =
  match model cfg with
  | None => ([], Val not_initialized)
  | Some generate_content => ([m], Val (call_model cfg generate_content m))
  end.
Proof.
  rewrite (api_chat_message_present cfg kvs m message_bound).
  rewrite message_truthy. cbn [bind not_or]. rewrite message_text. cbn [bind].
  apply String.eqb_neq in message_not_blank. rewrite message_not_blank, live.
  reflexivity.
Qed.

End RealCall.

(** Without a client the handler answers 500 and submits nothing. *)
Lemma api_chat_model_missing (cfg : config) (kvs : list (string * pyval))
    (m : pyval) (s : string) :
  USE_MOCK cfg = false ->
  model cfg = None ->
  assoc "message" kvs = Some m ->
  truthy m = Val true ->
  py_str m = Val s ->
  py_strip s <> "" ->
  api_chat cfg (VDict kvs)
  = ([], Val not_initialized).
Proof.
  intros Hlive Hnone Hm Ht Hs Hb.
  rewrite (api_chat_live cfg kvs m s Hlive Hm Ht Hs Hb), Hnone. reflexivity.
Qed.

Lemma api_chat_model_missing_witness :
  api_chat (mkConfig false true None) (VDict [("message", VStr "hi")])
  = ([], Val not_initialized).
Proof.
  apply (api_chat_model_missing (mkConfig false true None)
           [("message", VStr "hi")] (VStr "hi") "hi"); try reflexivity.
  discriminate.
Defined.

(** A failing client: the prompt was submitted once, and the answer is 500
    with the failure's text in debug configuration and a generic message
    otherwise; nothing is raised. *)
Lemma api_chat_model_failure (cfg : config) (generate_content : pyval -> res pyval)
    (kvs : list (string * pyval)) (m : pyval) (s : string) (e : exn) :
  USE_MOCK cfg = false ->
  model cfg = Some generate_content ->
  assoc "message" kvs = Some m ->
  truthy m = Val true ->
  py_str m = Val s ->
  py_strip s <> "" ->
  generate_content m = Exc e ->
  api_chat cfg (VDict kvs)
  = ([m], Val (error_response 500 (if DEBUG cfg then exn_str e else "Model error"))).
Proof.
  intros Hlive Hmodel Hm Ht Hs Hb Hfail.
  rewrite (api_chat_live cfg kvs m s Hlive Hm Ht Hs Hb), Hmodel.
  unfold call_model. rewrite Hfail. reflexivity.
Qed.

Lemma api_chat_model_failure_witness :
  api_chat (mkConfig false false (Some (fun _ => Exc timeout_error)))
    (VDict [("message", VStr "hello")])
  = ([VStr "hello"], Val (error_response 500 "Model error")).
Proof.
  apply (api_chat_model_failure
           (mkConfig false false (Some (fun _ => Exc timeout_error)))
           (fun _ => Exc timeout_error)
           [("message", VStr "hello")] (VStr "hello") "hello" timeout_error);
    try reflexivity.
  discriminate.
Defined.

(** A client that answers: the reply is what the extractor makes of the
    answer, provided it can be serialised. *)
Lemma api_chat_model_reply (cfg : config) (generate_content : pyval -> res pyval)
    (kvs : list (string * pyval)) (m resp v : pyval) (s : string) :
  USE_MOCK cfg = false ->
  model cfg = Some generate_content ->
  assoc "message" kvs = Some m ->
  truthy m = Val true ->
  py_str m = Val s ->
  py_strip s <> "" ->
  generate_content m = Val resp ->
  extract_text_from_response resp = Val v ->
  json_ok v = true ->
  api_chat cfg (VDict kvs) = ([m], Val (reply_response v)).
Proof.
  intros Hlive Hmodel Hm Ht Hs Hb Hans Hext Hjson.
  rewrite (api_chat_live cfg kvs m s Hlive Hm Ht Hs Hb), Hmodel.
  unfold call_model, jsonify. rewrite Hans. cbn [bind]. rewrite Hext. cbn [bind].
  cbn [json_ok forallb]. rewrite Hjson. reflexivity.
Qed.

Lemma api_chat_model_reply_witness :
  api_chat (mkConfig false true (Some (fun _ => Val (VObj plain_info [("text", Val (VStr "Hi there"))]))))
    (VDict [("message", VStr "hello")])
  = ([VStr "hello"], Val (reply_response (VStr "Hi there"))).
Proof.
  apply (api_chat_model_reply
           (mkConfig false true (Some (fun _ => Val (VObj plain_info [("text", Val (VStr "Hi there"))]))))
           (fun _ => Val (VObj plain_info [("text", Val (VStr "Hi there"))]))
           [("message", VStr "hello")] (VStr "hello")
           (VObj plain_info [("text", Val (VStr "Hi there"))]) (VStr "Hi there") "hello");
    try reflexivity.
  discriminate.
Defined.

(* ------------------------------------------------------------------ *)
(** * Properties of the command-line variant *)

(** Whatever the client and the [text] property do, [genai_response]
    returns. *)
Lemma genai_response_returns (generate_content : pyval -> res pyval) (prompt : pyval) :
  exists v, snd (genai_response generate_content prompt) = Val v.
Proof.
  unfold genai_response.
  destruct (bind (generate_content prompt) _) as [text|e]; cbn; eauto.
Qed.

(** C8.  When the model call raises, [genai_response] prints a warning and
    returns the fixed error reply instead of raising, and the turn of the
    main loop that made the call completes. *)
Theorem genai_response_catches (generate_content : pyval -> res pyval)
    (engine : pyval -> res unit) (prompt : pyval) (e : exn) :
  generate_content prompt = Exc e ->
  genai_response generate_content prompt = ([warning e], Val (VStr error_reply))
  /\ (forall u, prompt = VStr u ->
        exists t, loop_turn generate_content engine u = Val t).
Proof.
  intros Hfail.
  assert (Hg : genai_response generate_content prompt
               = ([warning e], Val (VStr error_reply))).
  { unfold genai_response. rewrite Hfail. reflexivity. }
  split; [exact Hg|].
  intros u ->. unfold loop_turn.
  destruct (existsb _ exit_words); [eauto|].
  destruct (negb _); [|eauto].
  rewrite Hg. cbn. eauto.
Qed.

Lemma genai_response_catches_witness :
  genai_response (fun _ => Exc quota_exceeded) (VStr "hello")
  = (["⚠ Error generating AI response: quota exceeded"], Val (VStr error_reply)).
Proof.
  exact (proj1 (genai_response_catches (fun _ => Exc quota_exceeded)
                  (fun _ => Val tt) (VStr "hello") quota_exceeded eq_refl)).
Defined.

(** An exit word, in any letter case, ends the loop before anything else is
    done. *)
Lemma loop_turn_exit (generate_content : pyval -> res pyval)
    (engine : pyval -> res unit) (u : string) :
  In (py_lower u) exit_words ->
  loop_turn generate_content engine u = Val (Stop ["👋 Exiting..."]).
Proof.
  intros Hin. unfold loop_turn.
  assert (Hex : existsb (String.eqb (py_lower u)) exit_words = true).
  { apply existsb_exists. exists (py_lower u). split; [exact Hin|].
    apply String.eqb_refl. }
  rewrite Hex. reflexivity.
Qed.

Lemma loop_turn_exit_witness :
  loop_turn (fun _ => Exc quota_exceeded) (fun _ => Val tt) "Quit"
  = Val (Stop ["👋 Exiting..."]).
Proof.
  apply (loop_turn_exit (fun _ => Exc quota_exceeded) (fun _ => Val tt) "Quit").
  right. left. reflexivity.
Defined.

Section BlankUtterance.

(** Lower-casing keeps whitespace whitespace. *)
Lemma lower_char_space (c : ascii) :
  is_space c = true -> is_space (lower_char c) = true.
Proof.
  destruct c as [b0 b1 b2 b3 b4 b5 b6 b7].
  destruct b0, b1, b2, b3, b4, b5, b6, b7; vm_compute; intros H; congruence.
Qed.

(** A text that strips to nothing starts with whitespace. *)
Lemma strip_blank_head (c : ascii) (s : string) :
  py_strip (String c s) = "" -> is_space c = true.
Proof.
  unfold py_strip. cbn [lstrip].
  destruct (is_space c) eqn:Hc; [reflexivity|].
  cbn [rstrip]. rewrite Hc.
  destruct (rstrip s); discriminate.
Qed.

(** No exit word is the lower-casing of a blank text. *)
Lemma blank_not_exit_word (u : string) :
  py_strip u = "" -> existsb (String.eqb (py_lower u)) exit_words = false.
Proof.
  intros Hblank.
  destruct u as [|c u]; [reflexivity|].
  pose proof (lower_char_space c (strip_blank_head c u Hblank)) as Hsp.
  cbn [py_lower exit_words existsb].
  repeat match goal with
         | |- context [String.eqb ?a ?b] =>
             let E := fresh "E" in
             destruct (String.eqb a b) eqn:E;
             [apply String.eqb_eq in E; injection E as Hc _;
              rewrite Hc in Hsp; discriminate Hsp|]
         end.
  reflexivity.
Qed.

End BlankUtterance.

(** A blank utterance, which is what a failed transcription yields, is
    skipped: nothing is printed, and neither the client nor the engine is
    used. *)
Lemma loop_turn_skip (generate_content : pyval -> res pyval)
    (engine : pyval -> res unit) (u : string) :
  py_strip u = "" ->
  loop_turn generate_content engine u = Val (Again []).
Proof.
  intros Hblank. unfold loop_turn.
  rewrite (blank_not_exit_word u Hblank), Hblank. reflexivity.
Qed.

Lemma loop_turn_skip_witness :
  loop_turn (fun _ => Exc quota_exceeded) (fun _ => Exc quota_exceeded) "  "
  = Val (Again []).
Proof.
  apply (loop_turn_skip (fun _ => Exc quota_exceeded) (fun _ => Exc quota_exceeded) "  ").
  reflexivity.
Defined.

(** A turn whose model call raises prints the warning and the error reply
    and hands the error reply to the speech engine. *)
Lemma loop_turn_model_failure (generate_content : pyval -> res pyval)
    (engine : pyval -> res unit) (u : string) (e : exn) :
  existsb (String.eqb (py_lower u)) exit_words = false ->
  py_strip u <> "" ->
  generate_content (VStr u) = Exc e ->
  loop_turn generate_content engine u
  = Val (Again ([warning e; "🤖 AI: " ++ error_reply]
                ++ speak_text engine (VStr error_reply))).
Proof.
  intros Hex Hblank Hfail. unfold loop_turn, genai_response.
  apply String.eqb_neq in Hblank. rewrite Hex, Hblank, Hfail. reflexivity.
Qed.

Lemma loop_turn_model_failure_witness :
  loop_turn (fun _ => Exc quota_exceeded) (fun _ => Val tt) "hello"
  = Val (Again ["⚠ Error generating AI response: quota exceeded";
                "🤖 AI: Sorry, I encountered an error processing your request."]).
Proof.
  apply (loop_turn_model_failure (fun _ => Exc quota_exceeded) (fun _ => Val tt)
           "hello" quota_exceeded); try reflexivity.
  discriminate.
Defined.

(* ------------------------------------------------------------------ *)
(** * Further properties of the extractor *)

(** The walk only enters the shapes it was written for: a top-level list of
    candidates, a mapping candidate under an object, an object candidate
    under a mapping and a tuple as the content of a mapping candidate are
    all answered by the string representation of the whole reply, or by the
    placeholder when that cannot be had. *)
Lemma unwalked_shapes :
  (forall xs, extract_text_from_response (VList xs) = Val (extract_rescue (VList xs)))
  /\ (forall i kvs rest,
        extract_text_from_response (obj_reply i (VList (VDict kvs :: rest)))
        = Val (extract_rescue (obj_reply i (VList (VDict kvs :: rest)))))
  /\ (forall i attrs rest,
        extract_text_from_response (map_reply (VList (VObj i attrs :: rest)))
        = Val (extract_rescue (map_reply (VList (VObj i attrs :: rest)))))
  /\ (forall xs rest,
        extract_text_from_response (map_reply (VList (map_candidate (VTuple xs) :: rest)))
        = Val (extract_rescue (map_reply (VList (map_candidate (VTuple xs) :: rest))))).
Proof.
  repeat split; intros; apply extract_after_Next;
    try discriminate; reflexivity.
Qed.

(** A reply object whose [text] is falsy, the empty string in particular,
    and that has no [candidates] is not answered by that text but by the
    string representation of the object, or by the placeholder. *)
Lemma extract_skips_falsy_text (info : objinfo) (attrs : list (string * res pyval))
    (t : pyval) :
  assoc "text" attrs = Some (Val t) ->
  truthy t = Val false ->
  assoc "candidates" attrs = None ->
  extract_text_from_response (VObj info attrs)
  = Val (extract_rescue (VObj info attrs)).
Proof.
  intros Ht Hf Hc. apply extract_after_Next; try discriminate; try reflexivity.
  unfold attempts, attempt_text, attempt_candidates, py_getattr, py_attr.
  rewrite Ht, Hc. cbn [bind]. rewrite Hf. reflexivity.
Qed.

Lemma extract_skips_falsy_text_witness :
  extract_text_from_response (VObj plain_info [("text", Val (VStr ""))])
  = Val (VStr "<object>").
Proof.
  apply (extract_skips_falsy_text plain_info [("text", Val (VStr ""))] (VStr ""));
    reflexivity.
Defined.

Section KeepsJson.

Lemma forallb_nth0 (xs : list pyval) (x : pyval) :
  forallb json_ok xs = true -> nth_error xs 0 = Some x -> json_ok x = true.
Proof.
  destruct xs as [|y xs]; [discriminate|].
  cbn. intros H [= <-]. apply andb_true_iff in H. tauto.
Qed.

Lemma getitem_int_json (v x : pyval) :
  json_ok v = true -> py_getitem_int v 0 = Val x -> json_ok x = true.
Proof.
  intros Hj Hg. destruct v; try discriminate Hg; unfold py_getitem_int in Hg.
  - destruct s as [|c s]; cbn in Hg; [discriminate Hg|]. injection Hg as <-. reflexivity.
  - destruct (nth_error xs 0) eqn:Hn; [|discriminate Hg].
    injection Hg as <-. now apply (forallb_nth0 xs).
  - destruct (nth_error xs 0) eqn:Hn; [|discriminate Hg].
    injection Hg as <-. now apply (forallb_nth0 xs).
Qed.

Lemma getitem_key_json (v x : pyval) (k : string) :
  json_ok v = true -> py_getitem_key v k = Val x -> json_ok x = true.
Proof.
  intros Hj Hg. destruct v; try discriminate Hg. cbn in Hg.
  destruct (assoc k kvs) eqn:Ha; [|discriminate Hg].
  injection Hg as <-. now apply (assoc_json kvs k).
Qed.

Lemma probe_key_c0_json (c0 v : pyval) :
  json_ok c0 = true -> probe_key_c0 c0 = Val (Return v) -> json_ok v = true.
Proof.
  intros Hj. unfold probe_key_c0.
  destruct (cond_and (is_dict c0) (py_contains "text" c0)) as [d|]; cbn [bind];
    [|discriminate].
  destruct d.
  - destruct (py_getitem_key c0 "text") as [x|] eqn:Hx; cbn [bind]; [|discriminate].
    intros [= <-]. now apply (getitem_key_json c0 x "text").
  - destruct (is_str c0); [|discriminate]. intros [= <-]. exact Hj.
Qed.

Lemma probe_key_cand_json (cand v : pyval) :
  json_ok cand = true -> probe_key_cand cand = Val (Return v) -> json_ok v = true.
Proof.
  intros Hj. unfold probe_key_cand.
  destruct (is_dict cand); [|discriminate].
  destruct (py_contains "output_text" cand) as [o|]; cbn [bind]; [|discriminate].
  destruct o.
  - destruct (py_getitem_key cand "output_text") as [x|] eqn:Hx; cbn [bind];
      [|discriminate].
    intros [= <-]. now apply (getitem_key_json cand x "output_text").
  - destruct (py_contains "content" cand) as [c|]; cbn [bind]; [|discriminate].
    destruct (cond_and c _) as [ok|]; cbn [bind]; [|discriminate].
    destruct ok; [|discriminate].
    destruct (py_getitem_key cand "content") as [content|] eqn:Hc; cbn [bind];
      [|discriminate].
    destruct (py_getitem_int content 0) as [c0|] eqn:H0; cbn [bind]; [|discriminate].
    apply probe_key_c0_json.
    apply (getitem_int_json content c0); [|exact H0].
    now apply (getitem_key_json cand content "content").
Qed.

Lemma attempt_mapping_json (resp v : pyval) :
  json_ok resp = true -> attempt_mapping resp = Val (Return v) -> json_ok v = true.
Proof.
  intros Hj. unfold attempt_mapping.
  destruct (is_dict resp); [|discriminate].
  destruct (py_contains "candidates" resp) as [c|]; cbn [bind]; [|discriminate].
  destruct (cond_and c _) as [ok|]; cbn [bind]; [|discriminate].
  destruct ok; [|discriminate].
  destruct (py_getitem_key resp "candidates") as [cs|] eqn:Hc; cbn [bind];
    [|discriminate].
  destruct (py_getitem_int cs 0) as [cand|] eqn:H0; cbn [bind]; [|discriminate].
  apply probe_key_cand_json.
  apply (getitem_int_json cs cand); [|exact H0].
  now apply (getitem_key_json resp cs "candidates").
Qed.

(** On a value without objects the attribute probes find nothing. *)
Lemma attempts_json (resp : pyval) :
  json_ok resp = true -> attempts resp = attempt_mapping resp.
Proof. destruct resp; try reflexivity. discriminate. Qed.

End KeepsJson.

(** Extraction keeps a reply serialisable: on a reply made of JSON values
    only (no instance of a user class anywhere in it), whatever the
    extractor returns is again made of JSON values, so [jsonify] accepts
    it. *)
Lemma extract_keeps_json (resp v : pyval) :
  json_ok resp = true ->
  extract_text_from_response resp = Val v ->
  json_ok v = true.
Proof.
  intros Hj Hv.
  destruct (is_str resp) eqn:Hstr.
  { destruct resp; try discriminate Hstr. injection Hv as <-. reflexivity. }
  assert (Hnone : resp = VNone \/ resp <> VNone).
  { destruct resp; auto; right; discriminate. }
  destruct Hnone as [-> | Hnone]; [injection Hv as <-; reflexivity|].
  destruct (attempts resp) as [[x|]|e] eqn:Ha.
  - rewrite (extract_after_Return resp x Hnone Hstr Ha) in Hv. injection Hv as <-.
    rewrite (attempts_json resp Hj) in Ha. now apply (attempt_mapping_json resp).
  - rewrite (extract_after_Next resp Hnone Hstr Ha) in Hv. injection Hv as <-.
    unfold extract_rescue. destruct (py_str resp); reflexivity.
  - rewrite (extract_after_Exc resp e Hnone Hstr Ha) in Hv. injection Hv as <-.
    unfold extract_rescue. destruct (py_str resp); reflexivity.
Qed.

Lemma extract_keeps_json_witness :
  json_ok (VStr "{'candidates': 5}") = true.
Proof.
  apply (extract_keeps_json (VDict [("candidates", VInt 5)]) (VStr "{'candidates': 5}"));
    reflexivity.
Defined.

(* ------------------------------------------------------------------ *)
(** * Further properties of the HTTP handler *)

Section Envelope.

Variable cfg : config.

(** The real call answers 200 with a reply or 500 with an error text. *)
Lemma call_model_envelope (generate_content : pyval -> res pyval) (m : pyval) :
  (exists v, call_model cfg generate_content m = reply_response v)
  \/ (exists msg, call_model cfg generate_content m = error_response 500 msg).
Proof.
  unfold call_model.
  destruct (generate_content m) as [resp|e]; cbn [bind];
    [|right; eexists; reflexivity].
  destruct (extract_text_from_response resp) as [v|e]; cbn [bind];
    [|right; eexists; reflexivity].
  unfold jsonify. destruct (json_ok _); cbn [bind];
    [left | right]; eexists; reflexivity.
Qed.

(** A mapping body without the key. *)
Lemma api_chat_no_key (kvs : list (string * pyval)) :
  assoc "message" kvs = None -> api_chat cfg (VDict kvs) = ([], Val missing_field).
Proof.
  intros Hno. unfold api_chat. cbn [truthy bind].
  destruct kvs as [|kv kvs]; [reflexivity|].
  cbn [nonempty cond_and py_contains]. rewrite Hno. reflexivity.
Qed.

(** The four ways the view answers a mapping of JSON values. *)
Lemma api_chat_mapping_cases (kvs : list (string * pyval)) :
  json_ok (VDict kvs) = true ->
  api_chat cfg (VDict kvs) = ([], Val missing_field)
  \/ api_chat cfg (VDict kvs) = ([], Val empty_message)
  \/ (USE_MOCK cfg = true
      /\ exists s, api_chat cfg (VDict kvs) = ([], Val (reply_response (VStr (mock_prefix ++ s)))))
  \/ (USE_MOCK cfg = false /\ model cfg = None
      /\ api_chat cfg (VDict kvs) = ([], Val not_initialized))
  \/ (USE_MOCK cfg = false
      /\ exists generate_content m,
           model cfg = Some generate_content
           /\ api_chat cfg (VDict kvs) = ([m], Val (call_model cfg generate_content m))).
Proof.
  intros Hj.
  destruct (assoc "message" kvs) as [m|] eqn:Hm.
  - rewrite (api_chat_message_present cfg kvs m Hm).
    pose proof (assoc_json kvs "message" m Hj Hm) as Hjm.
    destruct (truthy_json m Hjm) as (tm & ->).
    destruct (py_str_json m Hjm) as (s & Hs).
    cbn [bind]. destruct tm; cbn [not_or bind].
    + rewrite Hs. cbn [bind].
      destruct (String.eqb (py_strip s) ""); [auto|].
      destruct (USE_MOCK cfg) eqn:Hmock.
      * right. right. left. split; [reflexivity|]. exists s. reflexivity.
      * destruct (model cfg) as [gc|] eqn:Hmodel.
        -- right. right. right. right. split; [reflexivity|]. exists gc, m. auto.
        -- right. right. right. left. auto.
    + auto.
  - left. now apply api_chat_no_key.
Qed.

End Envelope.

(** Whatever the body, a response of the view is [{reply: ...}] with status
    200 or [{error: text}] with status 400 or 500; the model client is
    called at most once, never before a 400 and never in mock mode. *)
Lemma api_chat_envelope (cfg : config) (data : pyval) (calls : list pyval) (r : response) :
  api_chat cfg data = (calls, Val r) ->
  ((status r = 200 /\ exists v, body r = VDict [("reply", v)])
   \/ ((status r = 400 \/ status r = 500)
       /\ exists msg, body r = VDict [("error", VStr msg)]))
  /\ (List.length calls <= 1)%nat
  /\ (status r = 400 -> calls = [])
  /\ (USE_MOCK cfg = true -> calls = []).
Proof.
  unfold api_chat.
  destruct (bind (truthy data) _) as [[early|m]|e] eqn:Hpre; intros Heq.
  - injection Heq as <- <-.
    assert (Hearly : early = missing_field \/ early = empty_message
                     \/ exists s, early = reply_response (VStr (mock_prefix ++ s))).
    { revert Hpre.
      destruct (truthy data) as [t|]; cbn [bind]; [|discriminate].
      destruct (cond_and t (py_contains "message" data)) as [present|]; cbn [bind];
        [|discriminate].
      destruct present; cbn [negb]; [|intros [= <-]; auto].
      destruct (py_getitem_key data "message") as [um|]; cbn [bind]; [|discriminate].
      destruct (truthy um) as [tm|]; cbn [bind]; [|discriminate].
      destruct (not_or tm _) as [blank|]; cbn [bind]; [|discriminate].
      destruct blank; [intros [= <-]; auto|].
      destruct (USE_MOCK cfg); [|discriminate].
      destruct (py_str um) as [s|]; cbn [bind]; [|discriminate].
      intros [= <-]. right. right. exists s. reflexivity. }
    destruct Hearly as [-> | [-> | (s & ->)]]; cbn;
      repeat split; eauto; try lia; try discriminate.
  - assert (Hlive : USE_MOCK cfg = false).
    { revert Hpre.
      destruct (truthy data) as [t|]; cbn [bind]; [|discriminate].
      destruct (cond_and t (py_contains "message" data)) as [present|]; cbn [bind];
        [|discriminate].
      destruct present; cbn [negb]; [|discriminate].
      destruct (py_getitem_key data "message") as [um|]; cbn [bind]; [|discriminate].
      destruct (truthy um) as [tm|]; cbn [bind]; [|discriminate].
      destruct (not_or tm _) as [blank|]; cbn [bind]; [|discriminate].
      destruct blank; [discriminate|].
      destruct (USE_MOCK cfg); [|reflexivity].
      destruct (py_str um) as [s|]; cbn [bind]; discriminate. }
    destruct (model cfg) as [gc|].
    + injection Heq as <- <-.
      destruct (call_model_envelope cfg gc m) as [(v & ->) | (msg & ->)]; cbn;
        repeat split; eauto; try lia; try discriminate; try congruence.
    + injection Heq as <- <-. cbn.
      repeat split; eauto; try lia; try discriminate.
  - discriminate Heq.
Qed.

Lemma api_chat_envelope_witness :
  ((status (reply_response (VStr "(mock) I received: hello")) = 200
    /\ exists v, body (reply_response (VStr "(mock) I received: hello"))
                 = VDict [("reply", v)])
   \/ ((status (reply_response (VStr "(mock) I received: hello")) = 400
        \/ status (reply_response (VStr "(mock) I received: hello")) = 500)
       /\ exists msg, body (reply_response (VStr "(mock) I received: hello"))
                      = VDict [("error", VStr msg)]))
  /\ (List.length (@nil pyval) <= 1)%nat
  /\ (status (reply_response (VStr "(mock) I received: hello")) = 400 -> @nil pyval = [])
  /\ (USE_MOCK (mkConfig true false None) = true -> @nil pyval = []).
Proof.
  exact (api_chat_envelope (mkConfig true false None)
           (VDict [("message", VStr "hello")]) []
           (reply_response (VStr "(mock) I received: hello")) eq_refl).
Defined.

(** On a parsed JSON body that is [null], a boolean, an integer, a string,
    a list or a mapping (every kind of body but a floating-point number) the
    view raises exactly on [true], on a non-zero integer, on a string that
    contains [message] and on a list that contains the string [message];
    what it raises is a [TypeError]. *)
Lemma api_chat_raises_iff (cfg : config) (data : pyval) :
  json_ok data = true ->
  ((exists e, snd (api_chat cfg data) = Exc e) <-> crashing_body data = true)
  /\ (forall e, snd (api_chat cfg data) = Exc e -> exn_cls e = TypeError).
Proof.
  intros Hj.
  assert (Hval : forall calls r,
             api_chat cfg data = (calls, Val r) -> crashing_body data = false ->
             ((exists e, snd (api_chat cfg data) = Exc e) <-> crashing_body data = true)
             /\ (forall e, snd (api_chat cfg data) = Exc e -> exn_cls e = TypeError)).
  { intros calls r -> ->. cbn [snd]. split.
    - split; [intros (e & He); discriminate He | discriminate].
    - intros e He. discriminate He. }
  assert (Hexc : forall msg,
             api_chat cfg data = ([], Exc (mkExn TypeError msg)) ->
             crashing_body data = true ->
             ((exists e, snd (api_chat cfg data) = Exc e) <-> crashing_body data = true)
             /\ (forall e, snd (api_chat cfg data) = Exc e -> exn_cls e = TypeError)).
  { intros msg -> ->. cbn [snd]. split.
    - split; [reflexivity | eauto].
    - intros e [= <-]. reflexivity. }
  destruct data as [| b | n | s | xs | xs | kvs | info attrs].
  - eapply Hval; reflexivity.
  - destruct b; [eapply Hexc | eapply Hval]; reflexivity.
  - destruct (Z.eqb n 0) eqn:Hn; [eapply Hval | eapply Hexc];
      unfold api_chat; cbn; rewrite Hn; reflexivity.
  - destruct (String.eqb s "") eqn:Hs.
    + apply String.eqb_eq in Hs. subst s. eapply Hval; reflexivity.
    + destruct (contains_str "message" s) eqn:Hc; [eapply Hexc | eapply Hval];
        unfold api_chat; cbn [truthy bind cond_and py_contains crashing_body];
        rewrite ?Hs, ?Hc; cbn; rewrite ?Hc; reflexivity.
  - destruct xs as [|x xs]; [eapply Hval; reflexivity|].
    destruct (crashing_body (VList (x :: xs))) eqn:Hc; [eapply Hexc | eapply Hval];
      try reflexivity;
      unfold api_chat; cbn [truthy bind cond_and py_contains nonempty];
      cbn [crashing_body] in Hc; rewrite Hc; reflexivity.
  - destruct xs as [|x xs]; [eapply Hval; reflexivity|].
    destruct (crashing_body (VTuple (x :: xs))) eqn:Hc; [eapply Hexc | eapply Hval];
      try reflexivity;
      unfold api_chat; cbn [truthy bind cond_and py_contains nonempty];
      cbn [crashing_body] in Hc; rewrite Hc; reflexivity.
  - destruct (api_chat_mapping_cases cfg kvs Hj)
      as [H | [H | [(_ & s & H) | [(_ & _ & H) | (_ & gc & m & _ & H)]]]];
      eapply Hval; try exact H; reflexivity.
  - discriminate Hj.
Qed.

Lemma api_chat_raises_iff_witness :
  exists e, snd (api_chat (mkConfig true false None) (VList [VStr "message"])) = Exc e.
Proof.
  apply (proj2 (proj1 (api_chat_raises_iff (mkConfig true false None)
                         (VList [VStr "message"]) eq_refl))).
  reflexivity.
Defined.

Section NotBlank.

(** A text that starts with something other than whitespace does not strip
    to nothing. *)
Lemma strip_keeps_head (c : ascii) (s : string) :
  is_space c = false -> py_strip (String c s) <> "".
Proof.
  intros Hc. unfold py_strip. cbn [lstrip]. rewrite Hc.
  cbn [rstrip]. rewrite Hc. destruct (rstrip s); discriminate.
Qed.

(** The numeral of an integer starts with a digit or the sign. *)
Lemma int_repr_head (n : Z) :
  exists c s, int_repr n = String c s /\ is_space c = false.
Proof.
  unfold int_repr. destruct (Z.to_int n) as [d|d]; cbn.
  - destruct d; cbn; eexists; eexists; split; reflexivity.
  - destruct d; cbn; eexists; eexists; split; reflexivity.
Qed.

(** The text of a truthy JSON value that is not a string is never blank. *)
Lemma non_string_text_not_blank (m : pyval) (s : string) :
  json_ok m = true -> is_str m = false -> truthy m = Val true ->
  py_str m = Val s -> py_strip s <> "".
Proof.
  intros Hj Hn Ht Hs.
  destruct m as [| b | n | t | xs | xs | kvs | info attrs];
    try discriminate.
  - destruct b; [|discriminate Ht]. injection Hs as <-. discriminate.
  - cbn in Hs. injection Hs as <-.
    destruct (int_repr_head n) as (c & r & -> & Hc). now apply strip_keeps_head.
  - cbn in Hs. destruct (mapM py_repr xs) as [parts|]; [|discriminate Hs].
    cbn in Hs. injection Hs as <-. now apply strip_keeps_head.
  - cbn in Hs. destruct (mapM py_repr xs) as [parts|]; [|discriminate Hs].
    cbn in Hs. injection Hs as <-.
    unfold tuple_text. destruct parts as [|p [|q parts]]; now apply strip_keeps_head.
  - cbn in Hs. destruct (mapM _ kvs) as [parts|]; [|discriminate Hs].
    cbn in Hs. injection Hs as <-. now apply strip_keeps_head.
Qed.

End NotBlank.

(** For a mapping of JSON values that has the key, the view answers
    [Empty message.] exactly when the message is falsy (an empty string,
    zero, [false], [null], an empty list or mapping) or a string of
    whitespace; every other message goes on. *)
Lemma empty_message_iff (cfg : config) (kvs : list (string * pyval)) (m : pyval) :
  json_ok (VDict kvs) = true ->
  assoc "message" kvs = Some m ->
  (api_chat cfg (VDict kvs) = ([], Val empty_message)
   <-> truthy m = Val false \/ exists s, m = VStr s /\ py_strip s = "").
Proof.
  intros Hj Hm.
  pose proof (assoc_json kvs "message" m Hj Hm) as Hjm.
  rewrite (api_chat_message_present cfg kvs m Hm).
  destruct (truthy_json m Hjm) as (tm & Htm).
  destruct (py_str_json m Hjm) as (s & Hs).
  rewrite Htm. cbn [bind]. destruct tm; cbn [not_or bind].
  - rewrite Hs. cbn [bind].
    destruct (String.eqb (py_strip s) "") eqn:Hblank.
    + apply String.eqb_eq in Hblank. split; [intros _|reflexivity].
      right. destruct (is_str m) eqn:Hstr.
      * destruct m; try discriminate Hstr. injection Hs as ->. eauto.
      * exfalso. now apply (non_string_text_not_blank m s).
    + apply String.eqb_neq in Hblank. split.
      * destruct (USE_MOCK cfg); [intros H; discriminate H|].
        destruct (model cfg); intros H; discriminate H.
      * intros [H | (t & -> & Ht)]; [discriminate H|].
        injection Hs as ->. contradiction.
  - split; [auto | reflexivity].
Qed.

Lemma empty_message_iff_witness :
  api_chat (mkConfig true false None) (VDict [("message", VInt 0)])
  = ([], Val empty_message).
Proof.
  apply (proj2 (empty_message_iff (mkConfig true false None)
                  [("message", VInt 0)] (VInt 0) eq_refl eq_refl)).
  left. reflexivity.
Defined.

(* ------------------------------------------------------------------ *)
(** * Start-up and the application as a whole *)

(** Mock mode stays off exactly when the flag is off, the package imports,
    a non-empty key is set and [configure] accepts it; then the model is
    the first that can be built, and in mock mode there is none. *)
Lemma startup_live_iff (env : environ) (g : sdk) :
  (USE_MOCK (snd (startup env g)) = false
   <-> env_flag env "USE_MOCK" "0" = false
       /\ sdk_import g = Val tt
       /\ exists key, api_key env = Some key /\ configure g key = Val tt)
  /\ (USE_MOCK (snd (startup env g)) = false ->
      model (snd (startup env g)) = first_model g)
  /\ (USE_MOCK (snd (startup env g)) = true ->
      model (snd (startup env g)) = None)
  /\ DEBUG (snd (startup env g)) = env_flag env "DEBUG" "1".
Proof.
  unfold startup.
  destruct (env_flag env "USE_MOCK" "0"); cbn [snd USE_MOCK model DEBUG].
  { repeat split; try discriminate; try reflexivity. intros (H & _). discriminate H. }
  destruct (sdk_import g) as [[]|e] eqn:Hi; cbn [bind snd USE_MOCK model DEBUG].
  2:{ repeat split; try discriminate; try reflexivity. intros (_ & H & _). discriminate H. }
  destruct (api_key env) as [key|] eqn:Hk; cbn [snd USE_MOCK model DEBUG].
  2:{ repeat split; try discriminate; try reflexivity.
      intros (_ & _ & key & H & _). discriminate H. }
  destruct (configure g key) as [[]|e] eqn:Hc; cbn [bind snd USE_MOCK model DEBUG].
  - repeat split; try discriminate; try reflexivity. exists key. split; [reflexivity | exact Hc].
  - repeat split; try discriminate; try reflexivity.
    intros (_ & _ & key' & [= <-] & H). congruence.
Qed.

Section ValidMessage.

Variables (kvs : list (string * pyval)) (m : pyval) (s : string).
Hypothesis message_bound : assoc "message" kvs = Some m.
Hypothesis message_truthy : truthy m = Val true.
Hypothesis message_text : py_str m = Val s.
Hypothesis message_not_blank : py_strip s <> "".

(** In mock mode a valid message is echoed and nothing is submitted. *)
Lemma api_chat_mock (cfg : config) :
  USE_MOCK cfg = true ->
  api_chat cfg (VDict kvs) = ([], Val (reply_response (VStr (mock_prefix ++ s)))).
Proof.
  intros Hmock.
  rewrite (api_chat_message_present cfg kvs m message_bound).
  rewrite message_truthy. cbn [bind not_or]. rewrite message_text. cbn [bind].
  apply String.eqb_neq in message_not_blank. rewrite message_not_blank, Hmock.
  reflexivity.
Qed.

(** Without a usable key the web application starts in mock mode whatever
    the package does. *)
Lemma startup_without_key (env : environ) (g : sdk) :
  api_key env = None -> USE_MOCK (snd (startup env g)) = true.
Proof.
  intros Hk. unfold startup.
  destruct (env_flag env "USE_MOCK" "0"); [reflexivity|].
  destruct (sdk_import g) as [[]|e]; cbn [bind]; [|reflexivity].
  rewrite Hk. reflexivity.
Qed.

End ValidMessage.

(** With [GOOGLE_API_KEY] unset or empty, the web application answers every
    valid message with the mock reply and submits nothing, whatever the
    package does, while the command-line program, once its imports have
    succeeded, ends with a [ValueError] before it configures anything. *)
Lemma missing_key_web_and_cli (env : environ) (g : sdk)
    (kvs : list (string * pyval)) (m : pyval) (s : string) :
  api_key env = None ->
  assoc "message" kvs = Some m ->
  truthy m = Val true ->
  py_str m = Val s ->
  py_strip s <> "" ->
  serve env g (VDict kvs) = ([], Val (reply_response (VStr (mock_prefix ++ s))))
  /\ (sdk_import g = Val tt ->
      cli_startup env g = Exc (mkExn ValueError missing_key_message)).
Proof.
  intros Hk Hm Ht Hs Hb. split.
  - unfold serve. apply (api_chat_mock kvs m s Hm Ht Hs Hb).
    now apply startup_without_key.
  - intros Hi. unfold cli_startup. rewrite Hi. cbn [bind]. rewrite Hk. reflexivity.
Qed.

Lemma missing_key_web_and_cli_witness :
  serve no_environment working_sdk (VDict [("message", VStr "hello")])
  = ([], Val (reply_response (VStr "(mock) I received: hello")))
  /\ (sdk_import working_sdk = Val tt ->
      cli_startup no_environment working_sdk = Exc (mkExn ValueError missing_key_message)).
Proof.
  apply (missing_key_web_and_cli no_environment working_sdk
           [("message", VStr "hello")] (VStr "hello") "hello");
    try reflexivity.
  discriminate.
Defined.

(** With a key that is accepted and mock mode off, a valid message goes to
    the model built under the preferred name, to the one built under the
    older name when the preferred name raises, and is answered 500 without
    any call when both names raise. *)
Lemma serve_live (env : environ) (g : sdk) (key : string)
    (kvs : list (string * pyval)) (m : pyval) (s : string) :
  env_flag env "USE_MOCK" "0" = false ->
  sdk_import g = Val tt ->
  api_key env = Some key ->
  configure g key = Val tt ->
  assoc "message" kvs = Some m ->
  truthy m = Val true ->
  py_str m = Val s ->
  py_strip s <> "" ->
  (forall c, GenerativeModel g "gemini-2.5-flash" = Val c ->
     serve env g (VDict kvs) = ([m], Val (call_model (snd (startup env g)) c m)))
  /\ (forall e c, GenerativeModel g "gemini-2.5-flash" = Exc e ->
        GenerativeModel g "gemini-1.5" = Val c ->
        serve env g (VDict kvs) = ([m], Val (call_model (snd (startup env g)) c m)))
  /\ (forall e e', GenerativeModel g "gemini-2.5-flash" = Exc e ->
        GenerativeModel g "gemini-1.5" = Exc e' ->
        serve env g (VDict kvs) = ([], Val not_initialized)).
Proof.
  intros Hflag Hi Hk Hc Hm Ht Hs Hb.
  assert (Hcfg : USE_MOCK (snd (startup env g)) = false
                 /\ model (snd (startup env g)) = first_model g).
  { unfold startup. rewrite Hflag, Hi. cbn [bind]. rewrite Hk, Hc. split; reflexivity. }
  destruct Hcfg as (Hlive & Hmodel).
  assert (Hserve : serve env g (VDict kvs) =
                   match first_model g with
                   | None => ([], Val not_initialized)
                   | Some c => ([m], Val (call_model (snd (startup env g)) c m))
                   end).
  { unfold serve.
    rewrite (api_chat_live (snd (startup env g)) kvs m s Hlive Hm Ht Hs Hb), Hmodel.
    reflexivity. }
  rewrite Hserve. unfold first_model. repeat split.
  - intros c ->. reflexivity.
  - intros e c -> ->. reflexivity.
  - intros e e' -> ->. reflexivity.
Qed.

Lemma serve_live_witness :
  serve keyed_environment fallback_sdk (VDict [("message", VStr "hello")])
  = ([VStr "hello"], Val (reply_response (VStr "Hi there"))).
Proof.
  destruct (serve_live keyed_environment fallback_sdk "secret"
              [("message", VStr "hello")] (VStr "hello") "hello"
              eq_refl eq_refl eq_refl eq_refl eq_refl eq_refl eq_refl)
    as (_ & Hfallback & _); [discriminate|].
  rewrite (Hfallback (mkExn ValueError "unknown model") (answering "Hi there")
             eq_refl eq_refl).
  reflexivity.
Defined.

(** With [DEBUG] unset the debug flag is on, so the text of a model failure
    is sent to the client as it is. *)
Lemma serve_discloses_failure_by_default (env : environ) (g : sdk) (key : string)
    (c : client) (kvs : list (string * pyval)) (m : pyval) (s : string) (e : exn) :
  env "DEBUG" = None ->
  env_flag env "USE_MOCK" "0" = false ->
  sdk_import g = Val tt ->
  api_key env = Some key ->
  configure g key = Val tt ->
  first_model g = Some c ->
  assoc "message" kvs = Some m ->
  truthy m = Val true ->
  py_str m = Val s ->
  py_strip s <> "" ->
  c m = Exc e ->
  serve env g (VDict kvs) = ([m], Val (error_response 500 (exn_str e))).
Proof.
  intros Hd Hflag Hi Hk Hc Hfirst Hm Ht Hs Hb Hfail.
  assert (Hcfg : snd (startup env g) = mkConfig false true (Some c)).
  { assert (Hdebug : env_flag env "DEBUG" "1" = true)
      by (unfold env_flag, getenv; rewrite Hd; reflexivity).
    unfold startup. rewrite Hdebug, Hflag, Hi. cbn [bind].
    rewrite Hk, Hc. cbn [bind]. rewrite Hfirst. reflexivity. }
  unfold serve. rewrite Hcfg.
  rewrite (api_chat_live (mkConfig false true (Some c)) kvs m s eq_refl Hm Ht Hs Hb).
  cbn [model]. unfold call_model. rewrite Hfail. reflexivity.
Qed.

Lemma serve_discloses_failure_by_default_witness :
  serve keyed_environment timing_out_sdk (VDict [("message", VStr "hello")])
  = ([VStr "hello"], Val (error_response 500 "deadline exceeded")).
Proof.
  apply (serve_discloses_failure_by_default keyed_environment timing_out_sdk "secret"
           (fun _ => Exc timeout_error)
           [("message", VStr "hello")] (VStr "hello") "hello" timeout_error);
    try reflexivity.
  discriminate.
Defined.

(** The same reply, an object whose [text] property raises something other
    than [AttributeError], is answered differently by the two variants: the
    command-line handler returns the fixed error reply, while the web view
    answers 200 with the string representation of the reply object. *)
Lemma text_failure_cli_and_web (cfg : config) (generate_content : client)
    (kvs : list (string * pyval)) (m : pyval) (s shown : string)
    (info : objinfo) (attrs : list (string * res pyval)) (e : exn) :
  generate_content m = Val (VObj info attrs) ->
  assoc "text" attrs = Some (Exc e) ->
  is_AttributeError e = false ->
  o_str info = Val shown ->
  USE_MOCK cfg = false ->
  model cfg = Some generate_content ->
  assoc "message" kvs = Some m ->
  truthy m = Val true ->
  py_str m = Val s ->
  py_strip s <> "" ->
  genai_response generate_content m = ([warning e], Val (VStr error_reply))
  /\ api_chat cfg (VDict kvs) = ([m], Val (reply_response (VStr shown))).
Proof.
  intros Hg Htext Hne Hshown Hlive Hmodel Hm Ht Hs Hb. split.
  - unfold genai_response, py_attr. rewrite Hg. cbn [bind]. rewrite Htext. reflexivity.
  - rewrite (api_chat_live cfg kvs m s Hlive Hm Ht Hs Hb), Hmodel.
    assert (Hext : extract_text_from_response (VObj info attrs) = Val (VStr shown)).
    { unfold extract_text_from_response, extract_try, attempts, attempt_text,
        py_getattr, py_attr.
      rewrite Htext, Hne. cbn [bind and_then].
      unfold extract_rescue. cbn [py_str]. rewrite Hshown. reflexivity. }
    unfold call_model. rewrite Hg. cbn [bind]. rewrite Hext. reflexivity.
Qed.

Lemma text_failure_cli_and_web_witness :
  genai_response (fun _ => Val blocked_reply) (VStr "hello")
  = (["⚠ Error generating AI response: no valid part"], Val (VStr error_reply))
  /\ api_chat (mkConfig false true (Some (fun _ => Val blocked_reply)))
       (VDict [("message", VStr "hello")])
     = ([VStr "hello"], Val (reply_response (VStr "<GenerateContentResponse>"))).
Proof.
  apply (text_failure_cli_and_web
           (mkConfig false true (Some (fun _ => Val blocked_reply)))
           (fun _ => Val blocked_reply)
           [("message", VStr "hello")] (VStr "hello") "hello" "<GenerateContentResponse>"
           (mkInfo (Val "<GenerateContentResponse>") (Val "<GenerateContentResponse>") (Val true))
           [("text", Exc (mkExn ValueError "no valid part"))]
           (mkExn ValueError "no valid part"));
    try reflexivity.
  discriminate.
Defined.

(* ------------------------------------------------------------------ *)
(** * Listening and the main loop *)

(** [listen_to_audio] raises exactly what the microphone raises and what
    recognition raises outside the two handled classes; what it returns is
    the recognised text, or the empty text after a handled failure. *)
Lemma listen_to_audio_outcomes (h : hearing) :
  (forall e, snd (listen_to_audio h) = Exc e
     <-> mic_open h = Exc e
         \/ (mic_open h = Val tt /\ mic_listen h = Exc e)
         \/ (mic_open h = Val tt /\ mic_listen h = Val tt
             /\ recognized h = Exc e /\ unheard e = false))
  /\ (forall u, snd (listen_to_audio h) = Val u
        <-> mic_open h = Val tt /\ mic_listen h = Val tt
            /\ (recognized h = Val u
                \/ (u = "" /\ exists e, recognized h = Exc e /\ unheard e = true))).
Proof.
  unfold listen_to_audio, unheard.
  destruct (mic_open h) as [[]|e1]; cbn [snd].
  2:{ split; [intros e | intros u]; split.
      - intros [= ->]. auto.
      - intros [[= ->] | [(H & _) | (H & _)]]; [reflexivity | discriminate H ..].
      - discriminate.
      - intros (H & _). discriminate H. }
  destruct (mic_listen h) as [[]|e2]; cbn [snd].
  2:{ split; [intros e | intros u]; split.
      - intros [= ->]. auto.
      - intros [H | [(_ & [= ->]) | (_ & H & _)]]; [discriminate H | reflexivity | discriminate H].
      - discriminate.
      - intros (_ & H & _). discriminate H. }
  destruct (recognized h) as [text|e3]; cbn [snd].
  { split; [intros e | intros u]; split.
    - discriminate.
    - intros [H | [(_ & H) | (_ & _ & H & _)]]; discriminate H.
    - intros [= ->]. auto.
    - intros (_ & _ & [[= ->] | (_ & e & H & _)]); [reflexivity | discriminate H]. }
  destruct (is_class "UnknownValueError" e3) eqn:Hu; cbn [snd orb].
  { split; [intros e | intros u]; split.
    - discriminate.
    - intros [H | [(_ & H) | (_ & _ & [= <-] & H)]]; try discriminate H.
      rewrite Hu in H. discriminate H.
    - intros [= <-]. repeat split. right. split; [reflexivity|].
      exists e3. rewrite Hu. auto.
    - intros (_ & _ & [H | (-> & _)]); [discriminate H | reflexivity]. }
  destruct (is_class "RequestError" e3) eqn:Hr; cbn [snd orb].
  { split; [intros e | intros u]; split.
    - discriminate.
    - intros [H | [(_ & H) | (_ & _ & [= <-] & H)]]; try discriminate H.
      rewrite Hu, Hr in H. discriminate H.
    - intros [= <-]. repeat split. right. split; [reflexivity|].
      exists e3. rewrite Hu, Hr. auto.
    - intros (_ & _ & [H | (-> & _)]); [discriminate H | reflexivity]. }
  split; [intros e | intros u]; split.
  - intros [= ->]. right. right. rewrite Hu, Hr. auto.
  - intros [H | [(_ & H) | (_ & _ & [= ->] & _)]]; try discriminate H. reflexivity.
  - discriminate.
  - intros (_ & _ & [H | (_ & e & [= <-] & H)]); [discriminate H|].
    rewrite Hu, Hr in H. discriminate H.
Qed.

Section MainLoop.

Variables (generate_content : client) (engine : pyval -> res unit).

Lemma main_loop_cons (h : hearing) (rest : list hearing) :
  main_loop generate_content engine (h :: rest) =
  let (heard, r) := listen_to_audio h in
  match r with
  | Exc e => (heard, Crashed e)
  | Val user_input =>
      match loop_turn generate_content engine user_input with
      | Exc e => (heard, Crashed e)
      | Val (Stop printed) => ((heard ++ printed)%list, Exited)
      | Val (Again printed) =>
          let (later, e) := main_loop generate_content engine rest in
          ((heard ++ printed ++ later)%list, e)
      end
  end.
Proof. reflexivity. Qed.

(** A run over two stretches of hearings is the run over the first,
    continued by the run over the second when the first is still
    listening. *)
Lemma main_loop_app (hs1 hs2 : list hearing) :
  main_loop generate_content engine (hs1 ++ hs2) =
  match main_loop generate_content engine hs1 with
  | (out1, Listening) =>
      let (out2, e) := main_loop generate_content engine hs2 in
      ((out1 ++ out2)%list, e)
  | r => r
  end.
Proof.
  induction hs1 as [|h hs1 IH].
  - cbn [app main_loop]. destruct (main_loop generate_content engine hs2). reflexivity.
  - change ((h :: hs1) ++ hs2)%list with (h :: (hs1 ++ hs2))%list.
    rewrite !main_loop_cons, IH.
    destruct (listen_to_audio h) as [heard [u|e]]; [|reflexivity].
    destruct (loop_turn generate_content engine u) as [[p|p]|e]; try reflexivity.
    destruct (main_loop generate_content engine hs1) as [out1 [|e|]]; try reflexivity.
    destruct (main_loop generate_content engine hs2) as [out2 e2].
    rewrite <- !app_assoc. reflexivity.
Qed.

End MainLoop.

(** Once an exit word is heard, in any letter case, the loop ends: the
    hearings that follow are never used, and nothing is printed after the
    farewell. *)
Lemma main_loop_stops_at_exit (generate_content : client) (engine : pyval -> res unit)
    (hs1 hs2 : list hearing) (out1 : list string) (h : hearing) (u : string) :
  main_loop generate_content engine hs1 = (out1, Listening) ->
  mic_open h = Val tt ->
  mic_listen h = Val tt ->
  recognized h = Val u ->
  In (py_lower u) exit_words ->
  main_loop generate_content engine (hs1 ++ h :: hs2)
  = ((out1 ++ [listening; ("🗣 You said: " ++ u)%string; "👋 Exiting..."])%list, Exited).
Proof.
  intros H1 Ho Hl Hr Hin.
  rewrite main_loop_app, H1, main_loop_cons.
  unfold listen_to_audio. rewrite Ho, Hl, Hr.
  assert (Hex : existsb (String.eqb (py_lower u)) exit_words = true).
  { apply existsb_exists. exists (py_lower u). split; [exact Hin | apply String.eqb_refl]. }
  unfold loop_turn. rewrite Hex. reflexivity.
Qed.

Lemma main_loop_stops_at_exit_witness :
  main_loop (fun _ => Exc quota_exceeded) (fun _ => Val tt)
    ([garbled] ++ heard "STOP" :: [heard "hello"])
  = ([listening; "⚠ Sorry, I could not understand the audio.";
      listening; "🗣 You said: STOP"; "👋 Exiting..."], Exited).
Proof.
  apply (main_loop_stops_at_exit (fun _ => Exc quota_exceeded) (fun _ => Val tt)
           [garbled] [heard "hello"]
           [listening; "⚠ Sorry, I could not understand the audio."]
           (heard "STOP") "STOP"); try reflexivity.
  right. right. left. reflexivity.
Defined.

(** No failure of the model client, of recognition in the two handled ways
    or of the speech engine ends the loop: over audible hearings, with a
    client whose reply texts can be printed, a run ends by an exit word or
    is still listening. *)
Lemma main_loop_survives (generate_content : client) (engine : pyval -> res unit)
    (hs : list hearing) :
  Forall audible hs ->
  printable_replies generate_content ->
  forall e, snd (main_loop generate_content engine hs) <> Crashed e.
Proof.
  intros Hall Hprint. induction Hall as [|h hs (Ho & Hl & Hrec) _ IH]; intros e.
  - discriminate.
  - rewrite main_loop_cons.
    assert (Hlisten : exists heard u, listen_to_audio h = (heard, Val u)).
    { unfold listen_to_audio. rewrite Ho, Hl.
      destruct Hrec as [(u & ->) | (e' & -> & He')]; [eauto|].
      unfold unheard in He'.
      destruct (is_class "UnknownValueError" e'); [eauto|].
      destruct (is_class "RequestError" e'); [eauto | discriminate He']. }
    destruct Hlisten as (heard & u & ->).
    assert (Hturn : exists t, loop_turn generate_content engine u = Val t).
    { unfold loop_turn.
      destruct (existsb _ exit_words); [eauto|].
      destruct (negb _); [|eauto].
      unfold genai_response.
      destruct (generate_content (VStr u)) as [response|e1] eqn:Hg; cbn [bind];
        [|cbn; eauto].
      destruct (py_attr response "text") as [text|e2] eqn:Ht; [|cbn; eauto].
      destruct (Hprint _ _ _ Hg Ht) as (s & Hs). cbn [bind]. rewrite Hs. cbn. eauto. }
    destruct Hturn as ([p|p] & ->); [discriminate|].
    destruct (main_loop generate_content engine hs) as [later e'] eqn:Hrest.
    cbn [snd]. exact (IH e).
Qed.

Lemma main_loop_survives_witness :
  snd (main_loop (fun _ => Exc quota_exceeded) (fun _ => Exc timeout_error)
         [garbled; heard "hello"; heard "what now"])
  <> Crashed quota_exceeded.
Proof.
  apply (main_loop_survives (fun _ => Exc quota_exceeded) (fun _ => Exc timeout_error)
           [garbled; heard "hello"; heard "what now"]).
  - apply Forall_cons; [|apply Forall_cons; [|apply Forall_cons; [|apply Forall_nil]]];
      (split; [reflexivity | split; [reflexivity|]]).
    + right. exists (mkExn (OtherError "UnknownValueError") ""). split; reflexivity.
    + left. exists "hello". reflexivity.
    + left. exists "what now". reflexivity.
  - intros prompt response text H. discriminate H.
Defined.

(** A turn whose recognition fails in one of the two handled ways prints the
    listening line and one warning and goes straight on to the next
    hearing: the text passed on is empty, so neither the model client nor
    the speech engine is used in that turn. *)
Lemma main_loop_skips_unheard (generate_content : client) (engine : pyval -> res unit)
    (h : hearing) (rest : list hearing) (e : exn) :
  mic_open h = Val tt ->
  mic_listen h = Val tt ->
  recognized h = Exc e ->
  unheard e = true ->
  main_loop generate_content engine (h :: rest)
  = (listening
       :: (if is_class "UnknownValueError" e
           then "⚠ Sorry, I could not understand the audio."
           else "⚠ Could not request results; " ++ exn_str e)
       :: fst (main_loop generate_content engine rest),
     snd (main_loop generate_content engine rest)).
Proof.
  intros Ho Hl Hr Hu. rewrite main_loop_cons.
  unfold listen_to_audio. rewrite Ho, Hl, Hr. unfold unheard in Hu.
  destruct (is_class "UnknownValueError" e).
  - change (loop_turn generate_content engine "") with (Val (Again [])).
    destruct (main_loop generate_content engine rest). reflexivity.
  - cbn [orb] in Hu. rewrite Hu.
    change (loop_turn generate_content engine "") with (Val (Again [])).
    destruct (main_loop generate_content engine rest). reflexivity.
Qed.

Lemma main_loop_skips_unheard_witness :
  main_loop (fun _ => Exc quota_exceeded) (fun _ => Val tt) [garbled; heard "quit"]
  = ([listening; "⚠ Sorry, I could not understand the audio.";
      listening; "🗣 You said: quit"; "👋 Exiting..."], Exited).
Proof.
  exact (main_loop_skips_unheard (fun _ => Exc quota_exceeded) (fun _ => Val tt)
           garbled [heard "quit"] (mkExn (OtherError "UnknownValueError") "")
           eq_refl eq_refl eq_refl eq_refl).
Defined.

(** An exception that leaves [listen_to_audio] ends the loop: the main block
    has no handler around it, and the hearings that follow are never
    used. *)
Lemma main_loop_ends_on_listen_failure (generate_content : client)
    (engine : pyval -> res unit) (hs1 hs2 : list hearing) (out1 : list string)
    (h : hearing) (e : exn) :
  main_loop generate_content engine hs1 = (out1, Listening) ->
  snd (listen_to_audio h) = Exc e ->
  main_loop generate_content engine (hs1 ++ h :: hs2)
  = ((out1 ++ fst (listen_to_audio h))%list, Crashed e).
Proof.
  intros H1 He. rewrite main_loop_app, H1, main_loop_cons.
  destruct (listen_to_audio h) as [heard r]. cbn [snd fst] in *. subst r. reflexivity.
Qed.

Lemma main_loop_ends_on_listen_failure_witness :
  main_loop (fun _ => Val VNone) (fun _ => Val tt)
    ([garbled] ++ no_microphone :: [heard "quit"])
  = ([listening; "⚠ Sorry, I could not understand the audio."],
     Crashed (mkExn (OtherError "OSError") "No Default Input Device Available")).
Proof.
  exact (main_loop_ends_on_listen_failure (fun _ => Val VNone) (fun _ => Val tt)
           [garbled] [heard "quit"]
           [listening; "⚠ Sorry, I could not understand the audio."]
           no_microphone
           (mkExn (OtherError "OSError") "No Default Input Device Available")
           eq_refl eq_refl).
Defined.
